(** * Career retriever: a shallow embedding of [backend/utils/career_retriever.py]
    and of [RoadmapAgent._get_or_create_index] from [backend/agents/career_agent.py].

    Python values are modelled as follows.
    - [str] is [string]; a character is an [ascii], so the development covers
      texts whose code points are below 256.
    - [int] is [Z]; list positions and lengths are [nat].
    - A call either returns a value or raises: [outcome].
    - [print] appends a [Msg] to the console log of the [World].
    - Files live in a finite map from path strings to file contents. *)

From Stdlib Require Import ZArith String Ascii Lia.
From stdpp Require Import base option list gmap strings sorting pretty.

Local Open Scope string_scope.
Local Open Scope list_scope.

(** ** Python string primitives *)

Module PyStr.

Definition LF : ascii := "010"%char.
Definition CR : ascii := "013"%char.

(** [str.isspace] on one character, for code points below 256:
    TAB..CR, FS..US, SPACE, NEL and NBSP. *)
Definition is_space (c : ascii) : bool :=
  let n := nat_of_ascii c in
  ((9 <=? n)%nat && (n <=? 13)%nat) || ((28 <=? n)%nat && (n <=? 32)%nat)
  || (n =? 133)%nat || (n =? 160)%nat.

Fixpoint lstrip (s : string) : string :=
  match s with
  | EmptyString => EmptyString
  | String c s' => if is_space c then lstrip s' else s
  end.

Fixpoint rstrip (s : string) : string :=
  match s with
  | EmptyString => EmptyString
  | String c s' =>
      match rstrip s' with
      | EmptyString => if is_space c then EmptyString else String c EmptyString
      | r => String c r
      end
  end.

(** [s.strip()] *)
Definition strip (s : string) : string := lstrip (rstrip s).

(** [s.startswith(p)] *)
Fixpoint startswith (p s : string) : bool :=
  match p, s with
  | EmptyString, _ => true
  | String a p', String b s' => Ascii.eqb a b && startswith p' s'
  | String _ _, EmptyString => false
  end.

(** [s.endswith(p)]: [p] is [s] itself or ends the tail of [s] *)
Fixpoint endswith (p s : string) : bool :=
  String.eqb p s ||
  match s with
  | EmptyString => false
  | String _ s' => endswith p s'
  end.

(** [p in s] *)
Fixpoint contains (p s : string) : bool :=
  startswith p s ||
  match s with
  | EmptyString => false
  | String _ s' => contains p s'
  end.

(** [s.split(sep)] for a non-empty [sep]: scan from the left, cut at every
    occurrence of [sep] and resume right after it.  [skip] counts the
    characters of a matched separator still to be passed over, [cur] is the
    piece collected so far. *)
Fixpoint split_go (sep : string) (skip : nat) (cur : string) (s : string)
  : list string :=
  match s with
  | EmptyString => [cur]
  | String c s' =>
      match skip with
      | S n => split_go sep n cur s'
      | O =>
          if startswith sep s
          then cur :: split_go sep (String.length sep - 1) EmptyString s'
          else split_go sep 0 (cur +:+ String c EmptyString) s'
      end
  end.

Definition split (sep s : string) : list string := split_go sep 0 EmptyString s.

(** [s.replace(a, b)] for single characters *)
Fixpoint replace_char (a b : ascii) (s : string) : string :=
  match s with
  | EmptyString => EmptyString
  | String c s' => String (if Ascii.eqb c a then b else c) (replace_char a b s')
  end.

(** [s.lower()]: A..Z and the Latin-1 capitals move up by 32 *)
Definition lower_char (c : ascii) : ascii :=
  let n := nat_of_ascii c in
  if ((65 <=? n)%nat && (n <=? 90)%nat)
     || ((192 <=? n)%nat && (n <=? 222)%nat && negb (n =? 215)%nat)
  then ascii_of_nat (n + 32) else c.

Fixpoint lower (s : string) : string :=
  match s with
  | EmptyString => EmptyString
  | String c s' => String (lower_char c) (lower s')
  end.

(** [sep.join(l)] *)
Fixpoint join (sep : string) (l : list string) : string :=
  match l with
  | [] => EmptyString
  | [x] => x
  | x :: rest => x +:+ sep +:+ join sep rest
  end.

(** [list(s)]: the one-character strings of [s] *)
Fixpoint chars (s : string) : list string :=
  match s with
  | EmptyString => []
  | String c s' => String c EmptyString :: chars s'
  end.

(** Text-mode reading with the default [newline=None]: a carriage return,
    alone or followed by a line feed, is delivered as one line feed. *)
Fixpoint universal_newlines (s : string) : string :=
  match s with
  | EmptyString => EmptyString
  | String c s' =>
      if Ascii.eqb c CR then
        String LF
          match s' with
          | String c' s'' =>
              if Ascii.eqb c' LF then universal_newlines s''
              else universal_newlines s'
          | EmptyString => EmptyString
          end
      else String c (universal_newlines s')
  end.

(** Truthiness of a string *)
Definition truthy (s : string) : bool :=
  match s with EmptyString => false | _ => true end.

End PyStr.

(** ** Outcomes of Python calls *)

Inductive exn : Type :=
| IndexError
| ValueError
| AssertionError
| RuntimeError
| FileNotFoundError
| UnicodeDecodeError.

Inductive outcome (A : Type) : Type :=
| Returns (a : A)
| Raises (e : exn).
Arguments Returns {A} a.
Arguments Raises {A} e.

#[global] Instance outcome_ret : MRet outcome := @Returns.
#[global] Instance outcome_bind : MBind outcome := fun A B f m =>
  match m with
  | Returns a => f a
  | Raises e => Raises e
  end.

Definition nonempty {A} (l : list A) : bool :=
  match l with [] => false | _ => true end.

Definition len (s : string) : Z := Z.of_nat (String.length s).

(** ** The text splitter of the langchain library

    [RecursiveCharacterTextSplitter] is third-party code.  The model below
    follows the library's algorithm with the options the repository leaves at
    their defaults: [keep_separator=True], [is_separator_regex=False],
    [strip_whitespace=True], [length_function=len], [add_start_index=False]. *)

Module Langchain.
Import PyStr.

(** [_split_text_with_regex(text, separator, keep_separator=True)]:
    [re.split] with the separator captured, each separator glued to the
    front of the piece that follows it, empty pieces dropped. *)
Definition split_text_with_regex (text separator : string) : list string :=
  if truthy separator then
    match split separator text with
    | [] => []
    | first :: rest =>
        List.filter truthy (first :: map (String.append separator) rest)
    end
  else List.filter truthy (chars text).

(** [TextSplitter._join_docs] *)
Definition join_docs (docs : list string) (separator : string) : option string :=
  let text := strip (join separator docs) in
  if truthy text then Some text else None.

(** The [while] loop of [_merge_splits] that drops pieces from the front of
    [current_doc]; [current_doc[0]] on an empty list raises. *)
Fixpoint pop_front (chunk_size chunk_overlap separator_len _len : Z)
    (total : Z) (current_doc : list string) : outcome (Z * list string) :=
  if (chunk_overlap <? total)%Z
     || ((chunk_size <? total + _len
            + (if nonempty current_doc then separator_len else 0))%Z
         && (0 <? total)%Z)
  then
    match current_doc with
    | [] => Raises IndexError
    | d0 :: rest =>
        pop_front chunk_size chunk_overlap separator_len _len
          (total - (len d0
                    + (if (1 <? length current_doc)%nat then separator_len else 0)))%Z
          rest
    end
  else Returns (total, current_doc).

(** The [for] loop of [TextSplitter._merge_splits] *)
Fixpoint merge_loop (chunk_size chunk_overlap : Z) (separator : string)
    (splits : list string) (docs current_doc : list string) (total : Z)
  : outcome (list string) :=
  match splits with
  | [] => Returns (docs ++ option_list (join_docs current_doc separator))
  | d :: rest =>
      let separator_len := len separator in
      let _len := len d in
      '(docs, current_doc, total) ←
        (if (chunk_size <? total + _len
               + (if nonempty current_doc then separator_len else 0))%Z
            && nonempty current_doc
         then
           let docs := docs ++ option_list (join_docs current_doc separator) in
           '(total, current_doc) ←
             pop_front chunk_size chunk_overlap separator_len _len total current_doc;
           mret (docs, current_doc, total)
         else mret (docs, current_doc, total));
      let current_doc := current_doc ++ [d] in
      merge_loop chunk_size chunk_overlap separator rest docs current_doc
        (total + _len
         + (if (1 <? length current_doc)%nat then separator_len else 0))%Z
  end.

Definition merge_splits (chunk_size chunk_overlap : Z) (splits : list string)
    (separator : string) : outcome (list string) :=
  merge_loop chunk_size chunk_overlap separator splits [] [] 0%Z.

(** The body of [_split_text] once the separator is chosen.  [deeper] is the
    recursive call on the remaining separators, or [None] when
    [new_separators] is empty. *)
Fixpoint split_loop (chunk_size chunk_overlap : Z)
    (deeper : option (string -> outcome (list string)))
    (splits : list string) (final_chunks _good_splits : list string)
  : outcome (list string) :=
  match splits with
  | [] =>
      if nonempty _good_splits then
        merged_text ← merge_splits chunk_size chunk_overlap _good_splits EmptyString;
        mret (final_chunks ++ merged_text)
      else mret final_chunks
  | s :: rest =>
      if (len s <? chunk_size)%Z then
        split_loop chunk_size chunk_overlap deeper rest final_chunks
          (_good_splits ++ [s])
      else
        final_chunks ←
          (if nonempty _good_splits then
             merged_text ← merge_splits chunk_size chunk_overlap _good_splits EmptyString;
             mret (final_chunks ++ merged_text)
           else mret final_chunks);
        other_info ←
          match deeper with
          | None => mret [s]
          | Some f => f s
          end;
        split_loop chunk_size chunk_overlap deeper rest
          (final_chunks ++ other_info) []
  end.

Definition split_with (chunk_size chunk_overlap : Z) (separator : string)
    (deeper : option (string -> outcome (list string))) (text : string)
  : outcome (list string) :=
  split_loop chunk_size chunk_overlap deeper
    (split_text_with_regex text separator) [] [].

(** [RecursiveCharacterTextSplitter._split_text(text, separators)].  The
    search for the separator walks down the list: an entry that is neither
    empty nor found in the text is passed over, which is the same as calling
    with the rest of the list, unless it is the last entry, which is then
    used with no separators left. *)
Fixpoint split_text (chunk_size chunk_overlap : Z) (separators : list string)
    (text : string) : outcome (list string) :=
  match separators with
  | [] => Raises IndexError
  | _s :: rest =>
      if negb (truthy _s) then
        split_with chunk_size chunk_overlap _s None text
      else if contains _s text then
        split_with chunk_size chunk_overlap _s
          (if nonempty rest
           then Some (split_text chunk_size chunk_overlap rest) else None)
          text
      else if nonempty rest then
        split_text chunk_size chunk_overlap rest text
      else split_with chunk_size chunk_overlap _s None text
  end.

End Langchain.

(** ** The flat L2 index of the faiss library

    [faiss.IndexFlatL2] is third-party code, modelled from its documented
    behaviour: exact search by squared Euclidean distance, nearest first, the
    label array padded with -1 when fewer than [k] vectors are stored.
    Coordinates are integers and [sqdist] is computed exactly.  faiss
    computes in float32, which gives the same numbers as long as every
    coordinate and every distance is an integer of at most 2^24; beyond
    that float32 rounds and near-ties may be ordered differently.  The
    statements about the order of the results therefore carry
    [float32_exact] as a hypothesis. *)

Module Faiss.

Definition vec : Type := list Z.

Record IndexFlatL2 : Type := mkIndex { d : nat; xb : list vec }.

Definition ntotal (ix : IndexFlatL2) : nat := length (xb ix).

(** [faiss.IndexFlatL2(d)] *)
Definition new (dim : nat) : IndexFlatL2 := mkIndex dim [].

(** [index.add(x)]: [x] must be an n-by-d array; an empty batch has no
    second axis and the unpacking of its shape fails. *)
Definition add (x : list vec) (ix : IndexFlatL2) : outcome IndexFlatL2 :=
  match x with
  | [] => Raises ValueError
  | _ =>
      if forallb (fun v => (length v =? d ix)%nat) x
      then Returns (mkIndex (d ix) (xb ix ++ x))
      else Raises AssertionError
  end.

Fixpoint sqdist (a b : vec) : Z :=
  match a, b with
  | x :: a', y :: b' => ((x - y) * (x - y) + sqdist a' b')%Z
  | _, _ => 0%Z
  end.


(** A stored vector's position and its distance to the query *)
Definition scored (q : vec) (vs : list vec) : list (nat * Z) :=
  imap (fun i v => (i, sqdist q v)) vs.

Definition closer (p1 p2 : nat * Z) : Prop := (p1.2 <= p2.2)%Z.

#[global] Instance closer_dec : RelDecision closer.
Proof. intros p1 p2. unfold closer. apply _. Defined.

Definition ranked (q : vec) (vs : list vec) : list (nat * Z) :=
  merge_sort closer (scored q vs).

(** [index.search(x, k)] for a single query row: the label row.  The
    Python wrapper asserts the dimension and [k > 0]. *)
Definition search (ix : IndexFlatL2) (q : vec) (k : Z) : outcome (list Z) :=
  if negb (length q =? d ix)%nat then Raises AssertionError
  else if negb (0 <? k)%Z then Raises AssertionError
  else
    let hits := take (Z.to_nat k) (ranked q (xb ix)) in
    Returns (map (fun p => Z.of_nat p.1) hits
             ++ replicate (Z.to_nat k - length hits) (-1)%Z).

End Faiss.

(** ** Documents, settings, files *)

(** [langchain.schema.Document]; the metadata dict as an association list *)
Record Document : Type := mkDocument {
  page_content : string;
  metadata : list (string * string)
}.

(** The entries of the dict returned by [get_settings()] that the retriever
    and the roadmap agent read *)
Record Settings : Type := mkSettings {
  FAISS_INDEX_PATH : string;
  RAW_DATA_PATH : string;
  CHUNK_SIZE : Z;
  CHUNK_OVERLAP : Z;
  TOP_K_RESULTS : Z
}.

(** The values [get_settings()] yields when the environment sets none of them *)
Definition default_settings : Settings :=
  mkSettings "database/faiss_index" "database/raw_scraped_data" 1000 200 5.

(** What a path holds: UTF-8 text, a serialized index, or bytes that are
    neither.  Only text can be read as text and only a serialized index can
    be read as an index. *)
Inductive File : Type :=
| TextFile (s : string)
| IndexFile (ix : Faiss.IndexFlatL2)
| OtherFile.

(** Lines written by [print] *)
Inductive Msg : Type :=
| DataPathNotFound (p : string)
| ErrorReading (p : string)
| LoadedDocuments (n : nat)
| SplitInto (n : nat)
| GeneratingEmbeddings
| NoDocumentsFound
| IndexBuilt (n : nat)
| NoIndexToSave
| IndexSaved (p : string)
| IndexFileNotFound (p : string)
| ErrorReadingDocumentFile
| IndexLoaded (n : nat)
| NoIndexLoadedOrBuilt
| Retrieved (n : nat)
| BuildingNewIndex (career : string)
| CollectingData (career : string)
| DataSaved (p : string).

(** The attributes of a [CareerRetriever] that change after construction *)
Record CareerRetriever : Type := mkRetriever {
  index : option Faiss.IndexFlatL2;
  documents : list Document
}.

Record World : Type := mkWorld {
  self : CareerRetriever;
  files : gmap string File;
  dirs : gset string;
  console : list Msg
}.

(** [CareerRetriever.__init__] *)
Definition init : CareerRetriever := mkRetriever None [].

(** ** Stateful calls: a world in, an outcome and a world out *)

Definition Py (A : Type) : Type := World -> outcome A * World.

#[global] Instance Py_ret : MRet Py := fun A a w => (Returns a, w).
#[global] Instance Py_bind : MBind Py := fun A B f m w =>
  match m w with
  | (Returns a, w') => f a w'
  | (Raises e, w') => (Raises e, w')
  end.

Definition raise {A} (e : exn) : Py A := fun w => (Raises e, w).

Definition lift {A} (o : outcome A) : Py A := fun w => (o, w).

(** [try: body / except Exception: handler] *)
Definition try_except {A} (body : Py A) (handler : exn -> Py A) : Py A :=
  fun w =>
    match body w with
    | (Returns a, w') => (Returns a, w')
    | (Raises e, w') => handler e w'
    end.

Definition print (m : Msg) : Py unit := fun w =>
  (Returns tt, mkWorld (self w) (files w) (dirs w) (console w ++ [m])).

Definition get_index : Py (option Faiss.IndexFlatL2) := fun w =>
  (Returns (index (self w)), w).

Definition get_documents : Py (list Document) := fun w =>
  (Returns (documents (self w)), w).

Definition set_index (ix : Faiss.IndexFlatL2) : Py unit := fun w =>
  (Returns tt,
   mkWorld (mkRetriever (Some ix) (documents (self w))) (files w) (dirs w) (console w)).

Definition set_documents (docs : list Document) : Py unit := fun w =>
  (Returns tt,
   mkWorld (mkRetriever (index (self w)) docs) (files w) (dirs w) (console w)).

(** ** Paths and files *)

(** [os.path.join(a, b)] on POSIX.  [Path(a) / b] is taken to be the same
    string, which it is for [a] in normal form. *)
Definition path_join (a b : string) : string :=
  if PyStr.startswith "/" b then b
  else if negb (PyStr.truthy a) || PyStr.endswith "/" a then a +:+ b
  else a +:+ "/" +:+ b.

(** [os.path.exists] and [Path.exists], for paths the file system accepts.
    ([Path.exists] passes on the [OSError] of a name that is too long; what
    is proved further below about [load_documents] alone is therefore
    stated for calls that return.) *)
Definition exists_ (p : string) : Py bool := fun w =>
  (Returns (bool_decide (is_Some (files w !! p)) || bool_decide (p ∈ dirs w)), w).

(** [Path(p).mkdir(parents=True, exist_ok=True)], taken to succeed *)
Definition mkdir (p : string) : Py unit := fun w =>
  (Returns tt, mkWorld (self w) (files w) ({[p]} ∪ dirs w) (console w)).

(** [open(p, "r", encoding="utf-8").read()] *)
Definition read_text (p : string) : Py string := fun w =>
  match files w !! p with
  | Some (TextFile s) => (Returns (PyStr.universal_newlines s), w)
  | Some _ => (Raises UnicodeDecodeError, w)
  | None => (Raises FileNotFoundError, w)
  end.

(** Writing a file: [open(p, "w")] followed by the writes, or
    [faiss.write_index].  The write is taken to succeed: the callers create
    the directory first, and the career names the agent produces contain no
    path separator.  (A write into a missing folder, as for a career name
    with a path separator in it, raises; the frame properties of the
    writing calls further below are therefore stated for calls that
    return.) *)
Definition write_file (p : string) (f : File) : Py unit := fun w =>
  (Returns tt, mkWorld (self w) (<[p := f]> (files w)) (dirs w) (console w)).

(** [faiss.read_index(p)] *)
Definition read_index (p : string) : Py Faiss.IndexFlatL2 := fun w =>
  match files w !! p with
  | Some (IndexFile ix) => (Returns ix, w)
  | _ => (Raises RuntimeError, w)
  end.

(** The last component of a path: [Path.name] *)
Fixpoint basename_go (cur s : string) : string :=
  match s with
  | EmptyString => cur
  | String c s' =>
      if Ascii.eqb c "/"%char then basename_go EmptyString s'
      else basename_go (cur +:+ String c EmptyString) s'
  end.

Definition basename (p : string) : string := basename_go EmptyString p.

(** [Path(dir).glob("*.txt")]: the text-suffixed entries directly in [dir],
    in the order of the directory listing (here: of the file table) *)
Definition glob_txt (dir : string) : Py (list string) := fun w =>
  (Returns
     (List.filter
        (fun p => PyStr.endswith ".txt" p
                  && bool_decide (p = path_join dir (basename p)))
        (map fst (map_to_list (files w)))),
   w).

(** [career.replace(' ', '_').lower()] *)
Definition base_name (career : string) : string :=
  PyStr.lower (PyStr.replace_char " "%char "_"%char career).

Definition DOCUMENT_SEPARATOR : string := "
---DOCUMENT_SEPARATOR---
".

(** [l[i]] for a Python list and a possibly negative [i] *)
Definition getitem {A} (l : list A) (i : Z) : outcome A :=
  let j := if (i <? 0)%Z then (Z.of_nat (length l) + i)%Z else i in
  if (j <? 0)%Z then Raises IndexError
  else match l !! Z.to_nat j with
       | Some x => Returns x
       | None => Raises IndexError
       end.

(** What the scraper hands over *)
Record Video : Type := mkVideo {
  title : string; url : string; channel : string; description : string
}.

Record Scraped : Type := mkScraped {
  career_of : string;
  roadmap_sh : string;
  geeksforgeeks : string;
  freecodecamp : string;
  youtube_videos : list Video
}.

Section Retriever.

(** The module-level [settings] dict *)
Variable settings : Settings.

(** [SentenceTransformer.encode] on one text, and the model's
    [get_sentence_embedding_dimension()] *)
Variable encode : string -> Faiss.vec.
Variable dimension : nat.

(** [CareerScraper.scrape_all_sources]: what the network returns *)
Variable scrape_all_sources : string -> Scraped.

(** *** Document loading and chunking *)

(** The [for file in files] loop of [load_documents] *)
Fixpoint load_files (career : option string) (fs : list string)
    (docs : list Document) : Py (list Document) :=
  match fs with
  | [] => mret docs
  | file :: rest =>
      docs ←
        try_except
          (content ← read_text file;
           let content := PyStr.strip content in
           if PyStr.truthy content then
             mret (docs ++
                   [mkDocument content
                      [("source", basename file);
                       ("career",
                        match career with
                        | Some c => if PyStr.truthy c then c else "general"
                        | None => "general"
                        end)]])
           else mret docs)
          (fun _ => _ ← print (ErrorReading file); mret docs);
      load_files career rest docs
  end.

Definition load_documents (career : option string) : Py (list Document) :=
  let data_path := RAW_DATA_PATH settings in
  there ← exists_ data_path;
  if negb there then
    _ ← print (DataPathNotFound data_path); mret []
  else
    fs ←
      match career return Py (list string) with
      | Some c =>
          if PyStr.truthy c then
            let target := path_join data_path (base_name c +:+ "_data.txt") in
            found ← exists_ target;
            mret (if found : bool then [target] else [])
          else glob_txt data_path
      | None => glob_txt data_path
      end;
    docs ← load_files career fs [];
    _ ← print (LoadedDocuments (length docs));
    mret docs.

(** [TextSplitter.create_documents]: every chunk of a document carries a
    copy of that document's metadata *)
Fixpoint create_documents (docs : list Document) : outcome (list Document) :=
  match docs with
  | [] => mret []
  | doc :: rest =>
      chunks ←
        Langchain.split_text (CHUNK_SIZE settings) (CHUNK_OVERLAP settings)
          ["

"; "
"; "."; " "; EmptyString] (page_content doc);
      others ← create_documents rest;
      mret (map (fun c => mkDocument c (metadata doc)) chunks ++ others)
  end.

(** The splitter's constructor rejects an overlap larger than the size *)
Definition split_documents (docs : list Document) : Py (list Document) :=
  if (CHUNK_SIZE settings <? CHUNK_OVERLAP settings)%Z then raise ValueError
  else
    chunks ← lift (create_documents docs);
    _ ← print (SplitInto (length chunks));
    mret chunks.

(** *** Embedding and index management *)

Definition create_embeddings (texts : list string) : Py (list Faiss.vec) :=
  _ ← print GeneratingEmbeddings;
  mret (map encode texts).

Definition build_index (career : option string) : Py unit :=
  docs ← load_documents career;
  if negb (nonempty docs) then
    print NoDocumentsFound
  else
    chunks ← split_documents docs;
    _ ← set_documents chunks;
    let texts := map page_content chunks in
    embeddings ← create_embeddings texts;
    _ ← set_index (Faiss.new dimension);
    ix ← lift (Faiss.add embeddings (Faiss.new dimension));
    _ ← set_index ix;
    print (IndexBuilt (Faiss.ntotal ix)).

Definition index_file (career : string) : string :=
  path_join (FAISS_INDEX_PATH settings) (base_name career +:+ "_index.faiss").

Definition docs_file (career : string) : string :=
  path_join (FAISS_INDEX_PATH settings) (base_name career +:+ "_docs.txt").

(** The text written to the manifest *)
Fixpoint manifest (docs : list Document) : string :=
  match docs with
  | [] => EmptyString
  | doc :: rest => page_content doc +:+ DOCUMENT_SEPARATOR +:+ manifest rest
  end.

Definition save_index (career : string) : Py unit :=
  ix ← get_index;
  match ix with
  | None => print NoIndexToSave
  | Some ix =>
      _ ← mkdir (FAISS_INDEX_PATH settings);
      _ ← write_file (index_file career) (IndexFile ix);
      docs ← get_documents;
      _ ← write_file (docs_file career) (TextFile (manifest docs));
      print (IndexSaved (FAISS_INDEX_PATH settings))
  end.

(** The documents [load_index] makes of the manifest text *)
Definition parse_manifest (content : string) : list Document :=
  map (fun t => mkDocument (PyStr.strip t) [])
    (List.filter (fun t => PyStr.truthy (PyStr.strip t))
       (PyStr.split DOCUMENT_SEPARATOR content)).

Definition load_index (career : string) : Py bool :=
  found ← exists_ (index_file career);
  if negb found then
    _ ← print (IndexFileNotFound (index_file career)); mret false
  else
    ix ← read_index (index_file career);
    _ ← set_index ix;
    returned ←
      try_except
        (content ← read_text (docs_file career);
         _ ← set_documents (parse_manifest content);
         mret None)
        (fun _ => _ ← print ErrorReadingDocumentFile; mret (Some false));
    match returned with
    | Some result => mret result
    | None => _ ← print (IndexLoaded (Faiss.ntotal ix)); mret true
    end.

(** *** Semantic retrieval *)

(** The [for idx in indices[0]] loop of [retrieve] *)
Fixpoint collect (docs : list Document) (labels : list Z)
    (results : list Document) : outcome (list Document) :=
  match labels with
  | [] => mret results
  | idx :: rest =>
      if (idx <? Z.of_nat (length docs))%Z then
        doc ← getitem docs idx;
        collect docs rest (results ++ [doc])
      else collect docs rest results
  end.

(** [k or settings["TOP_K_RESULTS"]] *)
Definition k_or_default (k : option Z) : Z :=
  match k with
  | Some k => if (k =? 0)%Z then TOP_K_RESULTS settings else k
  | None => TOP_K_RESULTS settings
  end.

Definition retrieve (query : string) (k : option Z) : Py (list Document) :=
  ix ← get_index;
  match ix with
  | None => _ ← print NoIndexLoadedOrBuilt; mret []
  | Some ix =>
      let k := k_or_default k in
      let query_vector := encode query in
      labels ← lift (Faiss.search ix query_vector k);
      docs ← get_documents;
      results ← lift (collect docs labels []);
      _ ← print (Retrieved (length results));
      mret results
  end.

(** *** The scraper's file and the roadmap agent's index builder *)

Fixpoint video_lines (vs : list Video) : string :=
  match vs with
  | [] => EmptyString
  | v :: rest =>
      "
- " +:+ title v +:+ " by " +:+ channel v +:+ "
  URL: " +:+ url v +:+ "
" +:+ video_lines rest
  end.

Definition combined_text (data : Scraped) : string :=
  "
# Career: " +:+ career_of data +:+ "

## Roadmap.sh Content:
" +:+ roadmap_sh data +:+ "

## GeeksforGeeks Content:
" +:+ geeksforgeeks data +:+ "

## FreeCodeCamp Content:
" +:+ freecodecamp data +:+ "

## YouTube Video References:
" +:+ video_lines (youtube_videos data).

(** [CareerScraper.save_scraped_data] *)
Definition save_scraped_data (career : string) (data : Scraped) : Py string :=
  _ ← mkdir (RAW_DATA_PATH settings);
  let filepath := path_join (RAW_DATA_PATH settings) (base_name career +:+ "_data.txt") in
  _ ← write_file filepath (TextFile (combined_text data));
  _ ← print (DataSaved filepath);
  mret filepath.

(** [RoadmapAgent._get_or_create_index].  The line [CollectingData] is the
    one [scrape_all_sources] prints on entry; its one-second sleep and the
    error lines of the individual scrapers are not modelled. *)
Definition _get_or_create_index (career : string) : Py bool :=
  loaded ← load_index career;
  if loaded : bool then mret true
  else
    _ ← print (BuildingNewIndex career);
    _ ← print (CollectingData career);
    let scraped_data := scrape_all_sources career in
    _ ← save_scraped_data career scraped_data;
    _ ← build_index (Some career);
    _ ← save_index career;
    mret true.

End Retriever.

Arguments load_documents settings career w : simpl never.
Arguments split_documents settings docs w : simpl never.

(** ** Concrete instances used to run the code *)

Module Demo.

(** An embedding model of dimension 1: the length of the text *)
Definition enc (s : string) : Faiss.vec := [Z.of_nat (String.length s)].

Definition scr (career : string) : Scraped :=
  mkScraped career "Learn the basics" "Practice daily" "Build projects" [].

(** A fresh process on an empty disk *)
Definition fresh : World := mkWorld init ∅ ∅ [].

Definition doc (s : string) : Document := mkDocument s [].

(** A retriever holding the given chunks and their embeddings *)
Definition holding (chunks : list string) : World :=
  mkWorld
    (mkRetriever (Some (Faiss.mkIndex 1 (map enc chunks))) (map doc chunks))
    ∅ ∅ [].

End Demo.

(** ** State predicates *)

(** Unbuilt: no index has been built or loaded *)
Definition Unbuilt (w : World) : Prop := index (self w) = None.

(** Ready: the index has the embedding model's dimension and holds, row by
    row, the embeddings of the chunks the retriever keeps, of which there is
    at least one. *)
Definition Ready (encode : string -> Faiss.vec) (w : World) : Prop :=
  exists ix,
    index (self w) = Some ix /\
    (forall s, length (encode s) = Faiss.d ix) /\
    Faiss.xb ix = map (fun doc => encode (page_content doc)) (documents (self w)) /\
    documents (self w) <> [].


(** The distance of each returned chunk to the query, in result order *)
Definition result_distances (encode : string -> Faiss.vec) (query : string)
    (results : list Document) : list Z :=
  map (fun doc => Faiss.sqdist (encode query) (encode (page_content doc))) results.

Module Scenario.

(** Chunk size 40 and overlap 10, as in the spec's chunking scenario *)
Definition small : Settings :=
  mkSettings "database/faiss_index" "database/raw_scraped_data" 40 10 5.

(** A disk holding one scraped text for the career "python" *)
Definition disk : World :=
  mkWorld init
    {[ "database/raw_scraped_data/python_data.txt" :=
         TextFile "Python is great for data science and has role in machine learning." ]}
    {[ "database/raw_scraped_data" ]} [].

(** The world after [build_index("python")] on that disk *)
Definition built : World :=
  (build_index small Demo.enc 1 (Some "python") disk).2.

Definition chunk1 : Document :=
  mkDocument "Python is great for data science and has"
    [("source", "python_data.txt"); ("career", "python")].
Definition chunk2 : Document :=
  mkDocument "and has role in machine learning"
    [("source", "python_data.txt"); ("career", "python")].
Definition chunk3 : Document :=
  mkDocument "."
    [("source", "python_data.txt"); ("career", "python")].

End Scenario.

(** The world after the given lines have been printed *)
Definition say (msgs : list Msg) (w : World) : World :=
  mkWorld (self w) (files w) (dirs w) (console w ++ msgs).

(** A call that always returns and does nothing but print *)
Definition only_prints {A} (m : Py A) : Prop :=
  forall w, exists a msgs, m w = (Returns a, say msgs w).

Module Persisted.

(** A disk on which the index file of "python" holds two vectors while the
    manifest holds one chunk *)
Definition mismatched : World :=
  mkWorld init
    {[ "database/faiss_index/python_index.faiss" :=
         IndexFile (Faiss.mkIndex 1 [[3%Z]; [7%Z]]);
       "database/faiss_index/python_docs.txt" :=
         TextFile ("abc" +:+ DOCUMENT_SEPARATOR) ]}
    {[ "database/faiss_index" ]} [].

(** A disk with the index file of "python" but no manifest *)
Definition no_manifest : World :=
  mkWorld init
    {[ "database/faiss_index/python_index.faiss" :=
         IndexFile (Faiss.mkIndex 1 [[3%Z]; [7%Z]]) ]}
    {[ "database/faiss_index" ]} [].

End Persisted.

(** ** Chunks the manifest format can carry *)

(** The separator without its final line feed *)
Definition SEPARATOR_HEAD : string := "
---DOCUMENT_SEPARATOR---".

(** A chunk text that survives the manifest: not empty, no whitespace at
    either end, no carriage return, no separator inside, and not ending in
    the separator's head (which the line feed of the separator written
    after it would complete). *)
Definition clean_chunk (t : string) : bool :=
  PyStr.truthy t
  && String.eqb (PyStr.strip t) t
  && negb (PyStr.contains (String PyStr.CR EmptyString) t)
  && negb (PyStr.contains DOCUMENT_SEPARATOR t)
  && negb (PyStr.endswith SEPARATOR_HEAD t).

(** All ways of cutting a string in two *)
Fixpoint splits (s : string) : list (string * string) :=
  (EmptyString, s) ::
  match s with
  | EmptyString => []
  | String c s' => map (fun '(a, b) => (String c a, b)) (splits s')
  end.

(** The manifest entry without metadata, as [load_index] rebuilds it *)
Definition bare (doc : Document) : Document := mkDocument (page_content doc) [].

(** Aligned: there is an index, and its rows are, in order, the embeddings
    of the chunks in the document list (so the counts agree and position
    [i] of the index belongs to chunk [i]). *)
Definition Aligned (encode : string -> Faiss.vec) (w : World) : Prop :=
  exists ix,
    index (self w) = Some ix /\
    Faiss.xb ix = map (fun doc => encode (page_content doc)) (documents (self w)).

Module Tainted.

(** A disk whose scraped text for "python" contains the separator line *)
Definition disk : World :=
  mkWorld init
    {[ "database/raw_scraped_data/python_data.txt" :=
         TextFile ("x" +:+ DOCUMENT_SEPARATOR +:+ "y") ]}
    {[ "database/raw_scraped_data" ]} [].

Definition built : World :=
  (build_index default_settings Demo.enc 1 (Some "python") disk).2.

Definition saved : World := (save_index default_settings "python" built).2.

Definition reloaded : World := (load_index default_settings "python" saved).2.

End Tainted.

(** The path [save_scraped_data] writes and [load_documents] looks for *)
Definition data_file (settings : Settings) (career : string) : string :=
  path_join (RAW_DATA_PATH settings) (base_name career +:+ "_data.txt").

(** The running [total] of [_merge_splits]: the summed length of the pieces *)
Fixpoint total_len (pieces : list string) : Z :=
  match pieces with
  | [] => 0
  | p :: rest => len p + total_len rest
  end.

(** A call that always returns, only prints, and whose result satisfies [Q] *)
Definition prints_and {A} (Q : A -> Prop) (m : Py A) : Prop :=
  forall w, exists a msgs, m w = (Returns a, say msgs w) /\ Q a.

(** A document as the loaders produce it: its text is not blank and has no
    whitespace at either end. *)
Definition tidy (doc : Document) : Prop :=
  page_content doc <> EmptyString /\
  PyStr.strip (page_content doc) = page_content doc.

(** Two worlds with the same files and folders *)
Definition same_disk (w1 w2 : World) : Prop :=
  files w1 = files w2 /\ dirs w1 = dirs w2.

(** A call whose result depends on the disk only, not on the retriever or
    on what has been printed *)
Definition reads_disk_only {A} (m : Py A) : Prop :=
  forall w1 w2, same_disk w1 w2 -> (m w1).1 = (m w2).1.

(** One character of [career.replace(' ', '_').lower()] *)
Definition key_char (c : ascii) : ascii :=
  PyStr.lower_char (if Ascii.eqb c " "%char then "_"%char else c).

(** ** The roadmap agent ([backend/agents/career_agent.py])

    The lines the agent itself prints are collected in a log of their own,
    beside the console that holds the retriever's lines. *)

Inductive AgentMsg : Type :=
| DetectedCareer (career : string)
| RetrievingInformation
| GeneratingRoadmap
| ErrorGeneratingRoadmap (e : exn)
| ErrorGettingTips (e : exn).

(** The [career_keywords] dict of [_extract_career_name], in insertion order *)
Definition career_keywords : list (string * list string) :=
  [("full stack", ["full stack"; "fullstack"; "full-stack"]);
   ("frontend", ["frontend"; "front-end"; "front end"]);
   ("backend", ["backend"; "back-end"; "back end"]);
   ("data science", ["data science"; "data scientist"]);
   ("machine learning", ["machine learning"; "ml engineer"; "ai engineer"]);
   ("devops", ["devops"; "dev ops"]);
   ("android", ["android"]);
   ("ios", ["ios"; "swift"]);
   ("python", ["python developer"]);
   ("java", ["java developer"]);
   ("react", ["react developer"; "reactjs"]);
   ("nodejs", ["nodejs"; "node.js"; "node js"]);
   ("cyber security", ["cyber security"; "cybersecurity"; "security"]);
   ("blockchain", ["blockchain"; "web3"])].

(** [any(keyword in query_lower for keyword in keywords)] *)
Definition mentions (query_lower : string) (keywords : list string) : bool :=
  existsb (fun keyword => PyStr.contains keyword query_lower) keywords.

(** [RoadmapAgent._extract_career_name] *)
Definition _extract_career_name (query : string) : string :=
  let query_lower := PyStr.lower query in
  match List.find (fun entry => mentions query_lower entry.2) career_keywords with
  | Some entry => entry.1
  | None => "full stack"
  end.

(** The [context_parts] list of [_format_context], documents numbered from [i] *)
Fixpoint context_parts (i : nat) (docs : list Document) : list string :=
  match docs with
  | [] => []
  | doc :: rest =>
      ("--- Document " +:+ pretty i +:+ " ---")
        :: page_content doc :: EmptyString :: context_parts (S i) rest
  end.

(** [RoadmapAgent._format_context] *)
Definition _format_context (docs : list Document) : string :=
  PyStr.join "
" (context_parts 1 docs).

(** The prompt of [get_quick_tips] *)
Definition tips_prompt (career : string) : string :=
  "Provide 5 quick, actionable tips for someone starting a career in "
  +:+ career +:+ ". 
        Keep each tip one sentence long, specific, and practical.".

(** [[tip.strip() for tip in tips_text.split("\n") if tip.strip()]] *)
Definition tips_of (tips_text : string) : list string :=
  map PyStr.strip
    (List.filter (fun tip => PyStr.truthy (PyStr.strip tip))
       (PyStr.split "
" tips_text)).

(** The dict returned by [generate_roadmap] *)
Inductive RoadmapError : Type :=
| NoRelevantInformation
| ExceptionText (e : exn).

Inductive RoadmapResult : Type :=
| RoadmapFailure (error : RoadmapError)
| RoadmapSuccess (career roadmap : string) (additional_videos : list Video)
    (sources_used : nat).

Section RoadmapAgent.

Variable settings : Settings.
Variable encode : string -> Faiss.vec.
Variable dimension : nat.
Variable scrape_all_sources : string -> Scraped.

(** [self.llm.invoke(prompt)] reduced to the text of the response, or the
    exception it raises *)
Variable llm_invoke : string -> outcome string.

(** [self.prompt_template.format(context=..., query=...)] *)
Variable format_prompt : string -> string -> outcome string.

(** [scraper.search_youtube_videos(query, max_results=...)], which catches
    its own exceptions *)
Variable search_youtube_videos : string -> list Video.

(** [RoadmapAgent.get_quick_tips]: the tips and the lines printed *)
Definition get_quick_tips (career : string) : list string * list AgentMsg :=
  match llm_invoke (tips_prompt career) with
  | Returns tips_text => (tips_of tips_text, [])
  | Raises e => ([], [ErrorGettingTips e])
  end.

(** [RoadmapAgent.generate_roadmap]: the result dict, the world afterwards
    and the lines the agent printed.  Whatever is raised inside is caught. *)
Definition generate_roadmap (query : string) (w : World)
  : RoadmapResult * World * list AgentMsg :=
  let career := _extract_career_name query in
  let log := [DetectedCareer career] in
  match _get_or_create_index settings encode dimension scrape_all_sources career w with
  | (Raises e, w) =>
      (RoadmapFailure (ExceptionText e), w, log ++ [ErrorGeneratingRoadmap e])
  | (Returns _, w) =>
      let log := log ++ [RetrievingInformation] in
      match retrieve settings encode query (Some (TOP_K_RESULTS settings)) w with
      | (Raises e, w) =>
          (RoadmapFailure (ExceptionText e), w, log ++ [ErrorGeneratingRoadmap e])
      | (Returns relevant_docs, w) =>
          if negb (nonempty relevant_docs) then
            (RoadmapFailure NoRelevantInformation, w, log)
          else
            let context := _format_context relevant_docs in
            match format_prompt context query with
            | Raises e =>
                (RoadmapFailure (ExceptionText e), w,
                 log ++ [ErrorGeneratingRoadmap e])
            | Returns final_prompt =>
                let log := log ++ [GeneratingRoadmap] in
                match llm_invoke final_prompt with
                | Raises e =>
                    (RoadmapFailure (ExceptionText e), w,
                     log ++ [ErrorGeneratingRoadmap e])
                | Returns roadmap =>
                    let youtube_videos :=
                      search_youtube_videos (career +:+ " roadmap tutorial") in
                    (RoadmapSuccess career roadmap youtube_videos
                       (length relevant_docs), w, log)
                end
            end
      end
  end.

End RoadmapAgent.

Module DemoAgent.

(** A language model that answers every prompt, and one that always fails *)
Definition llm (prompt : string) : outcome string :=
  Returns ("1. Learn the basics
  2. Build projects  
" +:+ "
3. Keep practising").

Definition failing_llm (prompt : string) : outcome string := Raises RuntimeError.

(** A template with the two fields next to each other *)
Definition format (context query : string) : outcome string :=
  Returns (context +:+ query).

Definition youtube (query : string) : list Video := [].

End DemoAgent.

(** A text that is not blank and has no whitespace at either end *)
Definition tidy_text (t : string) : Prop :=
  t <> EmptyString /\ PyStr.strip t = t.

(** The texts of the documents a call returned *)
Definition result_texts (o : outcome (list Document)) : outcome (list string) :=
  match o with
  | Returns docs => Returns (map page_content docs)
  | Raises e => Raises e
  end.

Module Rescraped.

(** A scraper whose roadmap.sh text contains the separator line *)
Definition scr (career : string) : Scraped :=
  mkScraped career ("x" +:+ DOCUMENT_SEPARATOR +:+ "y") "Practice daily"
    "Build projects" [].

(** The worlds after a first and after a second [_get_or_create_index] for
    "python", starting from a fresh process on an empty disk *)
Definition first : World :=
  (_get_or_create_index default_settings Demo.enc 1 scr "python" Demo.fresh).2.

Definition second : World :=
  (_get_or_create_index default_settings Demo.enc 1 scr "python" first).2.

End Rescraped.

(** Scraped data with the description of every video blanked *)
Definition forget_description (v : Video) : Video :=
  mkVideo (title v) (url v) (channel v) EmptyString.

Definition forget_descriptions (data : Scraped) : Scraped :=
  mkScraped (career_of data) (roadmap_sh data) (geeksforgeeks data)
    (freecodecamp data) (map forget_description (youtube_videos data)).

(** * Properties *)

Example strip_ex : PyStr.strip "  a b
 " = "a b".
Proof. reflexivity. Qed.

Example split_ex :
  PyStr.split "--" "a--b----c--" = ["a"; "b"; EmptyString; "c"; EmptyString].
Proof. reflexivity. Qed.

Example split_overlap_ex : PyStr.split "aa" "aaa" = [EmptyString; "a"].
Proof. reflexivity. Qed.

(** The spec's chunking scenario: size 40, overlap 10 *)
Example split_text_scenario :
  Langchain.split_text 40 10 ["

"; "
"; "."; " "; EmptyString]
    "Python is great for data science and has role in machine learning."
  = Returns ["Python is great for data science and has";
             "and has role in machine learning"; "."].
Proof. vm_compute. reflexivity. Qed.

Example search_pads :
  Faiss.search (Faiss.mkIndex 1 [[5]; [1]; [9]]%Z) [0%Z] 5
  = Returns [1; 0; 2; -1; -1]%Z.
Proof. vm_compute. reflexivity. Qed.

(** ** Retrieval on an unbuilt retriever *)

Section RetrieveUnbuilt.
Variable settings : Settings.
Variable encode : string -> Faiss.vec.

(** C1 (amended): on a retriever whose index is [None], [retrieve] prints
    the warning that no index is loaded or built and returns the empty
    list; it raises nothing and changes nothing else, for every query and
    every [k]. *)
Theorem C1_retrieve_unbuilt_returns_empty (query : string) (k : option Z) (w : World) :
  Unbuilt w ->
  retrieve settings encode query k w
  = (Returns [],
     mkWorld (self w) (files w) (dirs w) (console w ++ [NoIndexLoadedOrBuilt])).
Proof.
  intros Hnone. unfold retrieve, get_index, mbind, Py_bind.
  rewrite Hnone. reflexivity.
Qed.

(** [k = 0] and an omitted [k] are replaced by the configured default
    before anything else happens, whatever the state of the retriever. *)
Lemma retrieve_falsy_k (query : string) (k : option Z) (w : World) :
  k = None \/ k = Some 0%Z ->
  retrieve settings encode query k w
  = retrieve settings encode query (Some (TOP_K_RESULTS settings)) w.
Proof.
  intros Hk. unfold retrieve, mbind, Py_bind, get_index.
  destruct (index (self w)) as [ix|]; [|reflexivity].
  assert (Hsame : k_or_default settings k
                  = k_or_default settings (Some (TOP_K_RESULTS settings))).
  { unfold k_or_default. destruct Hk as [-> | ->]; simpl;
      destruct (TOP_K_RESULTS settings =? 0)%Z eqn:E; try reflexivity;
      apply Z.eqb_eq in E; congruence. }
  rewrite Hsame. reflexivity.
Qed.

End RetrieveUnbuilt.

(** C1, as stated, fails: an unbuilt retriever answers a query with the
    empty list and no exception. *)
Lemma C1_counterexample :
  Unbuilt Demo.fresh /\
  (retrieve default_settings Demo.enc "python roadmap" (Some 3%Z) Demo.fresh).1
  = Returns [] /\
  ~ (exists e, (retrieve default_settings Demo.enc "python roadmap" (Some 3%Z) Demo.fresh).1
               = Raises e).
Proof.
  split; [reflexivity|]. split; [reflexivity|].
  intros [e He]. vm_compute in He. discriminate He.
Qed.

Lemma C1_witness :
  Unbuilt Demo.fresh /\
  retrieve default_settings Demo.enc "python roadmap" None Demo.fresh
  = (Returns [], mkWorld init ∅ ∅ [NoIndexLoadedOrBuilt]).
Proof.
  split; [reflexivity|].
  apply (C1_retrieve_unbuilt_returns_empty default_settings Demo.enc
           "python roadmap" None Demo.fresh).
  reflexivity.
Defined.

(** ** What the index search returns *)

Lemma scored_positions (q : Faiss.vec) (vs : list Faiss.vec) (p : nat * Z) :
  p ∈ Faiss.scored q vs -> p.1 < length vs.
Proof.
  unfold Faiss.scored. intros Hin.
  apply elem_of_lookup_imap in Hin as (i & v & -> & Hlook).
  simpl. eapply lookup_lt_Some, Hlook.
Qed.

Lemma ranked_positions (q : Faiss.vec) (vs : list Faiss.vec) (p : nat * Z) :
  p ∈ Faiss.ranked q vs -> p.1 < length vs.
Proof.
  unfold Faiss.ranked. intros Hin. apply (scored_positions q).
  by rewrite <- (merge_sort_Permutation Faiss.closer (Faiss.scored q vs)).
Qed.


(** A search that returns yields exactly [k] labels, each a stored position
    or the padding value -1. *)
Lemma search_labels (ix : Faiss.IndexFlatL2) (q : Faiss.vec) (k : Z) :
  length q = Faiss.d ix -> (0 < k)%Z ->
  exists labels,
    Faiss.search ix q k = Returns labels /\
    length labels = Z.to_nat k /\
    Forall (fun i => (-1 <= i < Z.of_nat (Faiss.ntotal ix))%Z) labels.
Proof.
  intros Hd Hk. unfold Faiss.search.
  rewrite Hd, Nat.eqb_refl. simpl.
  destruct (0 <? k)%Z eqn:E; [|apply Z.ltb_ge in E; lia]. simpl.
  eexists. split; [reflexivity|]. split.
  - rewrite length_app, length_map, length_replicate, length_take. lia.
  - apply Forall_app. split.
    + apply Forall_forall. intros i Hi.
      apply list_elem_of_fmap in Hi as (p & -> & Hp).
      apply elem_of_take in Hp as (j & Hp & _).
      apply list_elem_of_lookup_2 in Hp. apply ranked_positions in Hp.
      unfold Faiss.ntotal. lia.
    + apply Forall_forall. intros i Hi.
      apply elem_of_replicate in Hi as [-> _]. unfold Faiss.ntotal. lia.
Qed.

(** With at least one document, every label passes the bound check of the
    loop and picks a document, so one result is appended per label. *)
Lemma collect_all (docs : list Document) (labels : list Z) (acc : list Document) :
  docs <> [] ->
  Forall (fun i => (-1 <= i < Z.of_nat (length docs))%Z) labels ->
  exists results,
    collect docs labels acc = Returns results /\
    length results = length acc + length labels.
Proof.
  intros Hne. revert acc. induction labels as [|idx rest IH]; intros acc Hall.
  - exists acc. split; [reflexivity|]. simpl. lia.
  - apply Forall_cons in Hall as [Hidx Hrest]. simpl.
    destruct (idx <? Z.of_nat (length docs))%Z eqn:E;
      [|apply Z.ltb_ge in E; lia].
    assert (Hget : exists doc, getitem docs idx = Returns doc).
    { unfold getitem.
      assert (Hlen : 0 < length docs) by (destruct docs; [done|simpl; lia]).
      destruct (idx <? 0)%Z eqn:Eneg.
      - apply Z.ltb_lt in Eneg.
        destruct (Z.of_nat (length docs) + idx <? 0)%Z eqn:E2;
          [apply Z.ltb_lt in E2; lia|].
        destruct (docs !! Z.to_nat (Z.of_nat (length docs) + idx)) eqn:El; [eauto|].
        apply lookup_ge_None in El. lia.
      - rewrite Eneg.
        destruct (docs !! Z.to_nat idx) eqn:El; [eauto|].
        apply lookup_ge_None in El. apply Z.ltb_ge in Eneg. lia. }
    destruct Hget as [doc Hget]. rewrite Hget. simpl.
    destruct (IH (acc ++ [doc]) Hrest) as (results & Hres & Hlen).
    exists results. split; [exact Hres|].
    rewrite Hlen, length_app. simpl. lia.
Qed.

(** ** Retrieval on a ready retriever *)

Section RetrieveReady.
Variable settings : Settings.
Variable encode : string -> Faiss.vec.

(** On a ready retriever a positive [k] yields exactly [k] results: the
    bound check of the loop lets every label through, the padding value
    included. *)
Lemma retrieve_ready_length (query : string) (k : Z) (w : World) :
  Ready encode w -> (0 < k)%Z ->
  exists results w',
    retrieve settings encode query (Some k) w = (Returns results, w') /\
    length results = Z.to_nat k.
Proof.
  intros (ix & Hix & Hdim & Hxb & Hne) Hk.
  unfold retrieve, mbind, Py_bind, get_index. rewrite Hix.
  assert (Hkd : k_or_default settings (Some k) = k).
  { unfold k_or_default. destruct (k =? 0)%Z eqn:E; [|reflexivity].
    apply Z.eqb_eq in E. lia. }
  rewrite Hkd.
  destruct (search_labels ix (encode query) k (Hdim query) Hk)
    as (labels & Hsearch & Hlen & Hall).
  unfold lift at 1. rewrite Hsearch. unfold get_documents.
  assert (Hn : Faiss.ntotal ix = length (documents (self w))).
  { unfold Faiss.ntotal. rewrite Hxb. apply length_map. }
  rewrite Hn in Hall.
  destruct (collect_all (documents (self w)) labels [] Hne Hall)
    as (results & Hcollect & Hrlen).
  unfold lift. rewrite Hcollect. simpl.
  eexists _, _. split; [reflexivity|]. simpl in Hrlen. lia.
Qed.

(** C10: on a ready retriever with a positive configured default,
    [retrieve] with [k = 0] or with [k] omitted behaves exactly as with
    [k = TOP_K_RESULTS]: because the fallback is [k or default], zero is
    replaced as well, and the call returns [TOP_K_RESULTS] results, not
    none. *)
Theorem C10_falsy_k_takes_default (query : string) (k : option Z) (w : World) :
  Ready encode w -> (0 < TOP_K_RESULTS settings)%Z ->
  k = None \/ k = Some 0%Z ->
  retrieve settings encode query k w
  = retrieve settings encode query (Some (TOP_K_RESULTS settings)) w /\
  exists results w',
    retrieve settings encode query k w = (Returns results, w') /\
    length results = Z.to_nat (TOP_K_RESULTS settings) /\
    results <> [].
Proof.
  intros Hready Hpos Hk.
  pose proof (retrieve_falsy_k settings encode query k w Hk) as Hsame.
  split; [exact Hsame|]. rewrite Hsame.
  destruct (retrieve_ready_length query _ w Hready Hpos)
    as (results & w' & Hret & Hlen).
  exists results, w'. split; [exact Hret|]. split; [exact Hlen|].
  intros ->. simpl in Hlen. lia.
Qed.

End RetrieveReady.

Lemma C10_witness :
  retrieve Scenario.small Demo.enc "a" (Some 0%Z) Scenario.built
  = retrieve Scenario.small Demo.enc "a" (Some 5%Z) Scenario.built /\
  exists results w',
    retrieve Scenario.small Demo.enc "a" (Some 0%Z) Scenario.built
    = (Returns results, w') /\
    length results = 5 /\ results <> [].
Proof.
  apply (C10_falsy_k_takes_default Scenario.small Demo.enc "a" (Some 0%Z)
           Scenario.built).
  - exists (Faiss.mkIndex 1 [[40]; [32]; [1]]%Z).
    split; [vm_compute; reflexivity|]. split; [intros s; reflexivity|].
    split; [vm_compute; reflexivity|]. vm_compute. discriminate.
  - vm_compute. reflexivity.
  - right. reflexivity.
Defined.

(** C2 at the spec's scenario, three stored chunks and [k = 10]: the call
    returns ten documents, the three chunks nearest first followed by seven
    more copies of the last chunk of the document list.  The seven padding
    labels -1 pass the test [idx < len(self.documents)] and index the list
    from its end. *)
Theorem C2_retrieve_k_exceeds_stored :
  documents (self Scenario.built)
  = [Scenario.chunk1; Scenario.chunk2; Scenario.chunk3] /\
  (retrieve Scenario.small Demo.enc "a" (Some 10%Z) Scenario.built).1
  = Returns ([Scenario.chunk3; Scenario.chunk2; Scenario.chunk1]
             ++ replicate 7 Scenario.chunk3).
Proof. split; vm_compute; reflexivity. Qed.

(** C7 at three stored chunks and [k = 4]: four documents come back, and
    their distances to the query are 0, 961, 1521, 0, which is not ascending:
    the padding label -1 appends the last chunk of the document list after
    the farthest one. *)
Theorem C7_retrieve_not_nearest_first :
  exists results,
    (retrieve Scenario.small Demo.enc "a" (Some 4%Z) Scenario.built).1
    = Returns results /\
    length results <= 4 /\
    result_distances Demo.enc "a" results = [0; 961; 1521; 0]%Z /\
    ~ Sorted Z.le (result_distances Demo.enc "a" results).
Proof.
  exists [Scenario.chunk3; Scenario.chunk2; Scenario.chunk1; Scenario.chunk3].
  split; [vm_compute; reflexivity|].
  split; [simpl; lia|].
  assert (Hd : result_distances Demo.enc "a"
                 [Scenario.chunk3; Scenario.chunk2; Scenario.chunk1; Scenario.chunk3]
               = [0; 961; 1521; 0]%Z) by (vm_compute; reflexivity).
  split; [exact Hd|]. rewrite Hd. intros Hs.
  apply Sorted_inv in Hs as [Hs _]. apply Sorted_inv in Hs as [Hs _].
  apply Sorted_inv in Hs as [_ Hhd]. inversion Hhd; subst. lia.
Qed.

(** ** Calls that only print *)

Lemma say_nil (w : World) : say [] w = w.
Proof. destruct w. unfold say. simpl. by rewrite app_nil_r. Qed.

Lemma say_say (m1 m2 : list Msg) (w : World) : say m2 (say m1 w) = say (m1 ++ m2) w.
Proof. unfold say. simpl. by rewrite app_assoc. Qed.

(** Running a bind whose first part returns *)
Lemma bind_returns {A B} (m : Py A) (f : A -> Py B) (w w' : World) (a : A) :
  m w = (Returns a, w') -> (m ≫= f) w = f a w'.
Proof. intros Hm. unfold mbind, Py_bind. by rewrite Hm. Qed.

Lemma bind_raises {A B} (m : Py A) (f : A -> Py B) (w w' : World) (e : exn) :
  m w = (Raises e, w') -> (m ≫= f) w = (Raises e, w').
Proof. intros Hm. unfold mbind, Py_bind. by rewrite Hm. Qed.

Lemma only_prints_ret {A} (a : A) : only_prints (mret a).
Proof. intros w. exists a, []. by rewrite say_nil. Qed.

Lemma only_prints_print (m : Msg) : only_prints (print m).
Proof. intros w. exists tt, [m]. reflexivity. Qed.

Lemma only_prints_bind {A B} (m : Py A) (f : A -> Py B) :
  only_prints m -> (forall a, only_prints (f a)) -> only_prints (m ≫= f).
Proof.
  intros Hm Hf w. destruct (Hm w) as (a & msgs & Hmw).
  destruct (Hf a (say msgs w)) as (b & msgs' & Hfw).
  exists b, (msgs ++ msgs'). unfold mbind, Py_bind.
  rewrite Hmw, Hfw. by rewrite say_say.
Qed.

Lemma only_prints_exists (p : string) : only_prints (exists_ p).
Proof. intros w. eexists _, []. unfold exists_. by rewrite say_nil. Qed.

Lemma only_prints_glob (dir : string) : only_prints (glob_txt dir).
Proof. intros w. eexists _, []. unfold glob_txt. by rewrite say_nil. Qed.

Lemma only_prints_load_files (career : option string) (fs : list string)
    (docs : list Document) : only_prints (load_files career fs docs).
Proof.
  revert docs. induction fs as [|file rest IH]; intros docs.
  - apply only_prints_ret.
  - simpl. apply only_prints_bind; [|intros; apply IH].
    intros w. unfold try_except, mbind, Py_bind, read_text.
    destruct (files w !! file) as [[s| |]|].
    + destruct (PyStr.truthy (PyStr.strip (PyStr.universal_newlines s)));
        eexists _, []; by rewrite say_nil.
    + eexists _, [ErrorReading file]. reflexivity.
    + eexists _, [ErrorReading file]. reflexivity.
    + eexists _, [ErrorReading file]. reflexivity.
Qed.

Lemma only_prints_load_documents (settings : Settings) (career : option string) :
  only_prints (load_documents settings career).
Proof.
  unfold load_documents.
  apply only_prints_bind; [apply only_prints_exists|]. intros there.
  destruct there; simpl.
  - apply only_prints_bind.
    + destruct career as [c|]; [|apply only_prints_glob].
      destruct (PyStr.truthy c); [|apply only_prints_glob].
      apply only_prints_bind; [apply only_prints_exists|].
      intros; apply only_prints_ret.
    + intros fs. apply only_prints_bind; [apply only_prints_load_files|].
      intros docs. apply only_prints_bind; [apply only_prints_print|].
      intros; apply only_prints_ret.
  - apply only_prints_bind; [apply only_prints_print|].
    intros; apply only_prints_ret.
Qed.

(** ** Building when the document store is empty *)

Section BuildNoData.
Variable settings : Settings.
Variable encode : string -> Faiss.vec.
Variable dimension : nat.

(** C5 (amended): when [load_documents] finds nothing for the topic,
    [build_index] prints the no-documents warning and returns [None], the
    value it also returns after a successful build; the index and the chunk
    list are exactly what they were, so an unbuilt retriever stays unbuilt,
    and no file is touched. *)
Theorem C5_build_without_documents (career : option string) (w : World) :
  (load_documents settings career w).1 = Returns [] ->
  exists msgs,
    build_index settings encode dimension career w
    = (Returns tt, say (msgs ++ [NoDocumentsFound]) w).
Proof.
  intros Hnone.
  destruct (only_prints_load_documents settings career w) as (docs & msgs & Hload).
  rewrite Hload in Hnone. simpl in Hnone. injection Hnone as ->.
  exists msgs. unfold build_index, mbind, Py_bind. rewrite Hload. simpl.
  unfold print, say. simpl. by rewrite app_assoc.
Qed.

End BuildNoData.

(** C5, as stated, fails: with no documents on disk [build_index] returns
    normally, with the same value as a build that succeeds; no failure
    reaches the caller. *)
Lemma C5_counterexample :
  (load_documents default_settings (Some "python") Demo.fresh).1 = Returns [] /\
  (build_index default_settings Demo.enc 1 (Some "python") Demo.fresh).1 = Returns tt /\
  (build_index Scenario.small Demo.enc 1 (Some "python") Scenario.disk).1 = Returns tt /\
  index (self Scenario.built) <> None /\
  ~ (exists e, (build_index default_settings Demo.enc 1 (Some "python") Demo.fresh).1
               = Raises e).
Proof.
  split; [vm_compute; reflexivity|]. split; [vm_compute; reflexivity|].
  split; [vm_compute; reflexivity|]. split; [vm_compute; discriminate|].
  intros [e He]. vm_compute in He. discriminate He.
Qed.

Lemma C5_witness :
  (load_documents default_settings (Some "python") Demo.fresh).1 = Returns [] /\
  exists msgs,
    build_index default_settings Demo.enc 1 (Some "python") Demo.fresh
    = (Returns tt, say (msgs ++ [NoDocumentsFound]) Demo.fresh).
Proof.
  split; [vm_compute; reflexivity|].
  apply (C5_build_without_documents default_settings Demo.enc 1 (Some "python")
           Demo.fresh).
  vm_compute. reflexivity.
Defined.

(** ** Loading a persisted index *)

Section LoadIndex.
Variable settings : Settings.

Lemma exists_present (p : string) (f : File) (w : World) :
  files w !! p = Some f -> exists_ p w = (Returns true, w).
Proof.
  intros Hf. unfold exists_.
  rewrite (bool_decide_eq_true_2 (is_Some (files w !! p))); [reflexivity|].
  rewrite Hf. eauto.
Qed.

Lemma exists_absent (p : string) (w : World) :
  files w !! p = None -> p ∉ dirs w -> exists_ p w = (Returns false, w).
Proof.
  intros Hf Hd. unfold exists_.
  rewrite (bool_decide_eq_false_2 (is_Some (files w !! p)));
    [|rewrite Hf; by intros [? ?]].
  by rewrite (bool_decide_eq_false_2 (p ∈ dirs w)).
Qed.

(** With both files readable [load_index] returns [True], installs the
    stored index and the documents parsed from the manifest. *)
Lemma load_index_readable (career : string) (w : World)
    (ix : Faiss.IndexFlatL2) (s : string) :
  files w !! index_file settings career = Some (IndexFile ix) ->
  files w !! docs_file settings career = Some (TextFile s) ->
  load_index settings career w
  = (Returns true,
     mkWorld
       (mkRetriever (Some ix) (parse_manifest (PyStr.universal_newlines s)))
       (files w) (dirs w) (console w ++ [IndexLoaded (Faiss.ntotal ix)])).
Proof.
  intros Hi Hd. unfold load_index, mbind, Py_bind.
  rewrite (exists_present _ _ _ Hi). simpl.
  unfold read_index. rewrite Hi. simpl.
  unfold try_except, read_text. simpl. rewrite Hd. reflexivity.
Qed.

(** C6 (amended): [load_index] returns [False] when the index file of the
    topic does not exist, and then leaves the retriever and the disk exactly
    as they were; it also returns [False] when the index file is read but
    the manifest is missing or is not text.  The vector count of the index
    is not compared with the chunk count of the manifest: with both files
    readable [load_index] returns [True] whatever the counts. *)
Theorem C6_load_index_reports (career : string) (w : World) :
  (files w !! index_file settings career = None ->
   index_file settings career ∉ dirs w ->
   load_index settings career w
   = (Returns false, say [IndexFileNotFound (index_file settings career)] w))
  /\
  (forall ix,
     files w !! index_file settings career = Some (IndexFile ix) ->
     (forall s, files w !! docs_file settings career <> Some (TextFile s)) ->
     (load_index settings career w).1 = Returns false)
  /\
  (forall ix s,
     files w !! index_file settings career = Some (IndexFile ix) ->
     files w !! docs_file settings career = Some (TextFile s) ->
     (load_index settings career w).1 = Returns true).
Proof.
  split; [|split].
  - intros Hf Hd. unfold load_index, mbind, Py_bind.
    rewrite (exists_absent _ _ Hf Hd). reflexivity.
  - intros ix Hi Hd. unfold load_index, mbind, Py_bind.
    rewrite (exists_present _ _ _ Hi). simpl.
    unfold read_index. rewrite Hi. simpl.
    unfold try_except, read_text. simpl.
    destruct (files w !! docs_file settings career) as [[s| |]|] eqn:E;
      try reflexivity.
    by destruct (Hd s).
  - intros ix s Hi Hd. by rewrite (load_index_readable career w ix s Hi Hd).
Qed.

End LoadIndex.

(** C6, as stated, fails: an index of two vectors next to a manifest of one
    chunk is loaded with success, and the retriever is left with two vectors
    and one document. *)
Lemma C6_counterexample :
  exists w',
    load_index default_settings "python" Persisted.mismatched = (Returns true, w') /\
    (Faiss.ntotal <$> index (self w')) = Some 2 /\
    length (documents (self w')) = 1.
Proof. eexists. split; [vm_compute; reflexivity|]. split; reflexivity. Qed.

Lemma C6_witness :
  load_index default_settings "python" Demo.fresh
  = (Returns false,
     say [IndexFileNotFound "database/faiss_index/python_index.faiss"] Demo.fresh)
  /\ (load_index default_settings "python" Persisted.no_manifest).1 = Returns false
  /\ (load_index default_settings "python" Persisted.mismatched).1 = Returns true.
Proof.
  split; [|split].
  - apply (proj1 (C6_load_index_reports default_settings "python" Demo.fresh)).
    + vm_compute. reflexivity.
    + apply not_elem_of_empty.
  - apply (proj1 (proj2 (C6_load_index_reports default_settings "python"
                           Persisted.no_manifest))
             (Faiss.mkIndex 1 [[3%Z]; [7%Z]])).
    + vm_compute. reflexivity.
    + intros s. vm_compute. discriminate.
  - apply (proj2 (proj2 (C6_load_index_reports default_settings "python"
                           Persisted.mismatched))
             (Faiss.mkIndex 1 [[3%Z]; [7%Z]]) ("abc" +:+ DOCUMENT_SEPARATOR)).
    + vm_compute. reflexivity.
    + vm_compute. reflexivity.
Defined.

(** ** Facts about strings *)

#[local] Arguments String.append !s1 s2 : simpl nomatch.

Lemma app_nil_r_s (a : string) : a +:+ EmptyString = a.
Proof. induction a as [|c a IH]; simpl; congruence. Qed.

Lemma app_assoc_s (a b c : string) : (a +:+ b) +:+ c = a +:+ (b +:+ c).
Proof. induction a as [|x a IH]; simpl; congruence. Qed.

Lemma length_app_s (a b : string) :
  String.length (a +:+ b) = String.length a + String.length b.
Proof. induction a as [|x a IH]; simpl; congruence. Qed.

Lemma startswith_spec (p s : string) :
  PyStr.startswith p s = true <-> exists r, s = p +:+ r.
Proof.
  revert s. induction p as [|a p IH]; intros s; simpl.
  - split; [eauto|done].
  - destruct s as [|b s].
    + split; [done|]. intros [r Hr]. discriminate Hr.
    + rewrite andb_true_iff, IH. split.
      * intros [Hab [r ->]]. apply Ascii.eqb_eq in Hab as ->. eauto.
      * intros [r Hr]. injection Hr as -> ->. split; [apply Ascii.eqb_refl|eauto].
Qed.

Lemma contains_spec (p s : string) :
  PyStr.contains p s = true <-> exists a r, s = a +:+ p +:+ r.
Proof.
  induction s as [|c s IH]; simpl.
  - rewrite orb_false_r, startswith_spec. split.
    + intros [r Hr]. exists EmptyString, r. exact Hr.
    + intros ([|x a] & r & Hr); [eauto|discriminate Hr].
  - rewrite orb_true_iff, startswith_spec, IH. split.
    + intros [[r Hr] | (a & r & ->)].
      * exists EmptyString, r. exact Hr.
      * exists (String c a), r. reflexivity.
    + intros ([|x a] & r & Hr).
      * left. eauto.
      * right. injection Hr as -> ->. eauto.
Qed.

Lemma endswith_spec (p s : string) :
  PyStr.endswith p s = true <-> exists a, s = a +:+ p.
Proof.
  induction s as [|c s IH]; simpl.
  - rewrite orb_false_r, String.eqb_eq. split.
    + intros ->. by exists EmptyString.
    + intros ([|x a] & Ha); [done|discriminate Ha].
  - rewrite orb_true_iff, String.eqb_eq, IH. split.
    + intros [-> | [a ->]]; [by exists EmptyString | by exists (String c a)].
    + intros ([|x a] & Ha); [left; done|].
      right. injection Ha as -> ->. eauto.
Qed.

(** Two ways of writing one string as a concatenation overlap in a common
    middle part. *)
Lemma app_eq_app_s (a b c d : string) :
  a +:+ b = c +:+ d ->
  (exists k, c = a +:+ k /\ b = k +:+ d) \/ (exists k, a = c +:+ k /\ d = k +:+ b).
Proof.
  revert c. induction a as [|x a IH]; intros c Heq; simpl in Heq.
  - left. exists c. split; [reflexivity|exact Heq].
  - destruct c as [|y c]; simpl in Heq.
    + right. exists (String x a). split; [reflexivity|]. by rewrite <- Heq.
    + injection Heq as -> Heq. destruct (IH c Heq) as [(k & -> & ->) | (k & -> & ->)].
      * left. by exists k.
      * right. by exists k.
Qed.

Lemma splits_complete (a b : string) : (a, b) ∈ splits (a +:+ b).
Proof.
  induction a as [|c a IH]; simpl.
  - destruct b; apply list_elem_of_here.
  - apply list_elem_of_further.
    apply (list_elem_of_fmap_2 (fun '(a, b) => (String c a, b)) _ (a, b)), IH.
Qed.

(** The only proper cut of the separator whose right part begins with a
    line feed is the cut before its last character. *)
Lemma separator_border (u k : string) :
  DOCUMENT_SEPARATOR = u +:+ String PyStr.LF k ->
  u = EmptyString \/ u = SEPARATOR_HEAD.
Proof.
  intros Heq.
  pose proof (splits_complete u (String PyStr.LF k)) as Hin.
  rewrite <- Heq in Hin.
  assert (Hall : Forall
            (fun '(a, b) =>
               match b with
               | String c _ =>
                   if Ascii.eqb c PyStr.LF
                   then a = EmptyString \/ a = SEPARATOR_HEAD else True
               | EmptyString => True
               end)
            (splits DOCUMENT_SEPARATOR)).
  { vm_compute. repeat (constructor; [first [exact I | by left | by right]|]).
    constructor. }
  rewrite Forall_forall in Hall. specialize (Hall _ Hin). simpl in Hall.
  exact Hall.
Qed.

(** ** Splitting a text at a separator *)

Lemma split_go_skip (sep : string) (cur u rest : string) :
  PyStr.split_go sep (String.length u) cur (u +:+ rest)
  = PyStr.split_go sep 0 cur rest.
Proof.
  induction u as [|c u IH]; simpl; [|exact IH].
  destruct rest; reflexivity.
Qed.

(** While no occurrence of the separator starts inside [t], the scan moves
    [t] into the current piece. *)
Lemma split_go_scan (sep : string) (t rest cur : string) :
  (forall a u, t = a +:+ u -> u <> EmptyString ->
               PyStr.startswith sep (u +:+ rest) = false) ->
  PyStr.split_go sep 0 cur (t +:+ rest) = PyStr.split_go sep 0 (cur +:+ t) rest.
Proof.
  revert cur. induction t as [|c t IH]; intros cur Hno; simpl.
  - by rewrite app_nil_r_s.
  - assert (Hhere : PyStr.startswith sep (String c (t +:+ rest)) = false).
    { apply (Hno EmptyString (String c t)); done. }
    rewrite Hhere, IH.
    + by rewrite app_assoc_s.
    + intros a u -> Hu. apply (Hno (String c a) u); done.
Qed.

Lemma split_go_here (sep : string) (c0 : ascii) (sep' cur rest : string) :
  sep = String c0 sep' ->
  PyStr.split_go sep 0 cur (sep +:+ rest) = cur :: PyStr.split_go sep 0 EmptyString rest.
Proof.
  intros ->. change (String c0 sep' +:+ rest) with (String c0 (sep' +:+ rest)).
  cbn [PyStr.split_go].
  assert (Hst : PyStr.startswith (String c0 sep') (String c0 (sep' +:+ rest)) = true).
  { apply startswith_spec. by exists rest. }
  rewrite Hst. f_equal.
  replace (String.length (String c0 sep') - 1) with (String.length sep')
    by (simpl; lia).
  apply split_go_skip.
Qed.

(** A chunk that neither contains the separator nor ends in its head offers
    no place where a separator match could start before the separator that
    is written after it. *)
Lemma no_early_separator (t rest : string) :
  PyStr.contains DOCUMENT_SEPARATOR t = false ->
  PyStr.endswith SEPARATOR_HEAD t = false ->
  forall a u, t = a +:+ u -> u <> EmptyString ->
    PyStr.startswith DOCUMENT_SEPARATOR (u +:+ (DOCUMENT_SEPARATOR +:+ rest)) = false.
Proof.
  intros Hc He a u -> Hu.
  destruct (PyStr.startswith DOCUMENT_SEPARATOR (u +:+ (DOCUMENT_SEPARATOR +:+ rest)))
    eqn:Hst; [exfalso|reflexivity].
  apply startswith_spec in Hst as [r Hr].
  apply app_eq_app_s in Hr as [(k & Hsep & Hk) | (k & -> & _)].
  - destruct k as [|x k].
    + rewrite app_nil_r_s in Hsep. subst u.
      assert (PyStr.contains DOCUMENT_SEPARATOR (a +:+ DOCUMENT_SEPARATOR) = true)
        as Hin; [|congruence].
      apply contains_spec. exists a, EmptyString. by rewrite !app_nil_r_s.
    + assert (x = PyStr.LF) as ->.
      { change DOCUMENT_SEPARATOR
          with (String PyStr.LF "---DOCUMENT_SEPARATOR---
") in Hk at 1.
        simpl in Hk. by injection Hk as -> _. }
      destruct (separator_border u k Hsep) as [-> | ->]; [done|].
      assert (PyStr.endswith SEPARATOR_HEAD (a +:+ SEPARATOR_HEAD) = true)
        as Hin; [|congruence].
      apply endswith_spec. by exists a.
  - assert (PyStr.contains DOCUMENT_SEPARATOR (a +:+ (DOCUMENT_SEPARATOR +:+ k)) = true)
      as Hin; [|congruence].
    apply contains_spec. by exists a, k.
Qed.

Lemma split_chunk_then_separator (t rest : string) :
  PyStr.contains DOCUMENT_SEPARATOR t = false ->
  PyStr.endswith SEPARATOR_HEAD t = false ->
  PyStr.split DOCUMENT_SEPARATOR (t +:+ DOCUMENT_SEPARATOR +:+ rest)
  = t :: PyStr.split DOCUMENT_SEPARATOR rest.
Proof.
  intros Hc He. unfold PyStr.split.
  rewrite (split_go_scan _ t _ EmptyString (no_early_separator t rest Hc He)).
  apply (split_go_here DOCUMENT_SEPARATOR PyStr.LF "---DOCUMENT_SEPARATOR---
").
  reflexivity.
Qed.

(** ** Reading back what was written *)

Lemma contains_char_cons (x c : ascii) (s : string) :
  PyStr.contains (String x EmptyString) (String c s)
  = Ascii.eqb x c || PyStr.contains (String x EmptyString) s.
Proof. simpl. destruct s; by rewrite andb_true_r. Qed.

Lemma contains_char_app (x : ascii) (a b : string) :
  PyStr.contains (String x EmptyString) (a +:+ b)
  = PyStr.contains (String x EmptyString) a || PyStr.contains (String x EmptyString) b.
Proof.
  induction a as [|c a IH].
  - reflexivity.
  - change (String c a +:+ b) with (String c (a +:+ b)).
    rewrite !contains_char_cons, IH. by rewrite orb_assoc.
Qed.

(** A text without carriage returns is read back unchanged. *)
Lemma universal_newlines_id (s : string) :
  PyStr.contains (String PyStr.CR EmptyString) s = false ->
  PyStr.universal_newlines s = s.
Proof.
  induction s as [|c s IH]; [reflexivity|].
  rewrite contains_char_cons. intros Hno.
  apply orb_false_iff in Hno as [Hc Hs]. simpl.
  rewrite Ascii.eqb_sym, Hc. f_equal. by apply IH.
Qed.

Section SaveLoad.
Variable settings : Settings.

Lemma manifest_no_cr (docs : list Document) :
  Forall (fun doc => clean_chunk (page_content doc) = true) docs ->
  PyStr.contains (String PyStr.CR EmptyString) (manifest docs) = false.
Proof.
  induction 1 as [|doc rest Hdoc _ IH]; [reflexivity|].
  cbn [manifest]. rewrite !contains_char_app, IH.
  unfold clean_chunk in Hdoc. rewrite !andb_true_iff, !negb_true_iff in Hdoc.
  destruct Hdoc as [[[[_ _] Hcr] _] _]. rewrite Hcr. reflexivity.
Qed.

(** Clean chunks come back from the manifest text one by one, in order,
    with empty metadata. *)
Lemma parse_manifest_clean (docs : list Document) :
  Forall (fun doc => clean_chunk (page_content doc) = true) docs ->
  parse_manifest (manifest docs) = map bare docs.
Proof.
  induction 1 as [|doc rest Hdoc _ IH]; [reflexivity|].
  unfold clean_chunk in Hdoc. rewrite !andb_true_iff, !negb_true_iff in Hdoc.
  destruct Hdoc as [[[[Hne Hstrip] _] Hsep] Hhead].
  apply String.eqb_eq in Hstrip.
  unfold parse_manifest in *. cbn [manifest].
  rewrite (split_chunk_then_separator _ _ Hsep Hhead).
  simpl List.filter. rewrite Hstrip, Hne. simpl. rewrite Hstrip, IH. reflexivity.
Qed.

Lemma path_join_suffix_inj (a base s1 s2 : string) :
  PyStr.startswith "/" s1 = false -> PyStr.startswith "/" s2 = false ->
  path_join a (base +:+ s1) = path_join a (base +:+ s2) -> s1 = s2.
Proof.
  intros H1 H2. unfold path_join.
  assert (Hsame : PyStr.startswith "/" (base +:+ s1)
                  = PyStr.startswith "/" (base +:+ s2)).
  { destruct base as [|c base].
    - change (EmptyString +:+ s1) with s1. change (EmptyString +:+ s2) with s2.
      congruence.
    - change (String c base +:+ s1) with (String c (base +:+ s1)).
      change (String c base +:+ s2) with (String c (base +:+ s2)).
      simpl. by destruct (base +:+ s1), (base +:+ s2). }
  rewrite Hsame.
  destruct (PyStr.startswith "/" (base +:+ s2)).
  - intros Heq. by apply (String.app_inj base).
  - destruct (negb (PyStr.truthy a) || PyStr.endswith "/" a).
    + intros Heq. apply (String.app_inj a) in Heq. by apply (String.app_inj base).
    + intros Heq. apply (String.app_inj a), (String.app_inj "/") in Heq.
      by apply (String.app_inj base).
Qed.

Lemma index_file_ne_docs_file (career : string) :
  index_file settings career <> docs_file settings career.
Proof.
  unfold index_file, docs_file. intros Heq.
  apply path_join_suffix_inj in Heq; [discriminate Heq|reflexivity|reflexivity].
Qed.

(** What [save_index] does when there is an index *)
Lemma save_index_some (career : string) (w : World) (ix : Faiss.IndexFlatL2) :
  index (self w) = Some ix ->
  save_index settings career w
  = (Returns tt,
     mkWorld (self w)
       (<[docs_file settings career := TextFile (manifest (documents (self w)))]>
          (<[index_file settings career := IndexFile ix]> (files w)))
       ({[FAISS_INDEX_PATH settings]} ∪ dirs w)
       (console w ++ [IndexSaved (FAISS_INDEX_PATH settings)])).
Proof.
  intros Hix. unfold save_index, mbind, Py_bind, get_index. rewrite Hix. reflexivity.
Qed.

(** Saving and then loading: the index comes back as it was, the documents
    as the manifest text parses. *)
Lemma save_then_load (career : string) (w : World) (ix : Faiss.IndexFlatL2) :
  index (self w) = Some ix ->
  exists w1 w2,
    save_index settings career w = (Returns tt, w1) /\
    load_index settings career w1 = (Returns true, w2) /\
    index (self w2) = Some ix /\
    documents (self w2)
    = parse_manifest (PyStr.universal_newlines (manifest (documents (self w)))) /\
    files w2 = files w1.
Proof.
  intros Hix. eexists _, _. split; [apply (save_index_some career w ix Hix)|].
  rewrite (load_index_readable settings career _ ix (manifest (documents (self w)))).
  - split; [reflexivity|]. simpl. repeat split; reflexivity.
  - simpl.
    rewrite lookup_insert_ne by (apply not_eq_sym, index_file_ne_docs_file).
    apply lookup_insert_eq.
  - simpl. apply lookup_insert_eq.
Qed.

(** C3 (amended): when the retriever has an index and every chunk it holds
    is clean (not empty, no whitespace at either end, no carriage return,
    no separator inside, not ending in a line feed followed by
    [---DOCUMENT_SEPARATOR---]), [save_index] followed by [load_index] for
    the same career succeeds and restores the same number of chunks, in the
    same order, with identical content; the metadata is not kept. *)
Theorem C3_manifest_round_trip (career : string) (w : World) (ix : Faiss.IndexFlatL2) :
  index (self w) = Some ix ->
  Forall (fun doc => clean_chunk (page_content doc) = true) (documents (self w)) ->
  exists w1 w2,
    save_index settings career w = (Returns tt, w1) /\
    load_index settings career w1 = (Returns true, w2) /\
    documents (self w2) = map bare (documents (self w)) /\
    map page_content (documents (self w2)) = map page_content (documents (self w)).
Proof.
  intros Hix Hclean.
  destruct (save_then_load career w ix Hix) as (w1 & w2 & Hsave & Hload & _ & Hdocs & _).
  exists w1, w2. split; [exact Hsave|]. split; [exact Hload|].
  rewrite (universal_newlines_id _ (manifest_no_cr _ Hclean)) in Hdocs.
  rewrite (parse_manifest_clean _ Hclean) in Hdocs.
  split; [exact Hdocs|]. rewrite Hdocs, map_map. reflexivity.
Qed.

End SaveLoad.

(** C3, as stated, fails: a padded chunk is stripped, a blank chunk is
    dropped, a chunk with a carriage return comes back with a line feed and
    a chunk containing the separator is cut in two. *)
Lemma C3_counterexample :
  let w := Demo.holding [" padded "; "   "; "a" +:+ String PyStr.CR "b";
                         "x" +:+ DOCUMENT_SEPARATOR +:+ "y"] in
  let w1 := (save_index default_settings "python" w).2 in
  let w2 := (load_index default_settings "python" w1).2 in
  (load_index default_settings "python" w1).1 = Returns true /\
  map page_content (documents (self w2))
  = ["padded"; "a" +:+ String PyStr.LF "b"; "x"; "y"] /\
  map page_content (documents (self w2)) <> map page_content (documents (self w)).
Proof.
  split; [vm_compute; reflexivity|]. split; [vm_compute; reflexivity|].
  vm_compute. discriminate.
Qed.

Lemma C3_witness :
  exists w1 w2,
    save_index Scenario.small "python" Scenario.built = (Returns tt, w1) /\
    load_index Scenario.small "python" w1 = (Returns true, w2) /\
    documents (self w2) = map bare (documents (self Scenario.built)) /\
    map page_content (documents (self w2))
    = map page_content (documents (self Scenario.built)).
Proof.
  apply (C3_manifest_round_trip Scenario.small "python" Scenario.built
           (Faiss.mkIndex 1 [[40]; [32]; [1]]%Z)).
  - vm_compute. reflexivity.
  - vm_compute. repeat constructor.
Defined.

(** ** Index rows and chunks *)

Section Alignment.
Variable settings : Settings.
Variable encode : string -> Faiss.vec.
Variable dimension : nat.

Lemma add_to_new (x : list Faiss.vec) (ix : Faiss.IndexFlatL2) :
  Faiss.add x (Faiss.new dimension) = Returns ix -> Faiss.xb ix = x.
Proof.
  unfold Faiss.add. destruct x as [|v x]; [discriminate|].
  destruct (forallb _ _); [|discriminate].
  intros Heq. injection Heq as <-. reflexivity.
Qed.

(** A build that found documents and returned has installed the chunks and
    the index of their embeddings. *)
Lemma build_index_returned (career : option string) (w w' : World) (docs : list Document) :
  (load_documents settings career w).1 = Returns docs -> docs <> [] ->
  build_index settings encode dimension career w = (Returns tt, w') ->
  Aligned encode w' /\ files w' = files w /\ dirs w' = dirs w.
Proof.
  intros Hdocs Hne.
  destruct (only_prints_load_documents settings career w) as (docs' & msgs & Hload).
  rewrite Hload in Hdocs. simpl in Hdocs. injection Hdocs as ->.
  unfold build_index, mbind at 1, Py_bind at 1. rewrite Hload.
  destruct docs as [|doc docs]; [done|]. cbn [nonempty negb].
  unfold mbind at 1, Py_bind at 1, split_documents.
  destruct (CHUNK_SIZE settings <? CHUNK_OVERLAP settings)%Z;
    [intros H; discriminate H|].
  unfold mbind at 1, Py_bind at 1, lift at 1.
  destruct (create_documents settings (doc :: docs)) as [chunks|e];
    [|intros H; discriminate H].
  unfold create_embeddings, print, lift, set_documents, set_index.
  unfold mbind, Py_bind, mret, Py_ret.
  cbn [self files dirs console documents index].
  destruct (Faiss.add (map encode (map page_content chunks)) (Faiss.new dimension))
    as [ix|e] eqn:Hadd; [|intros H; discriminate H].
  intros Heq. injection Heq as <-. cbn.
  split; [|done]. exists ix. split; [reflexivity|].
  rewrite (add_to_new _ _ Hadd). by rewrite map_map.
Qed.

(** C4 (amended): after every [build_index] that found documents and
    returned, the index rows are exactly the embeddings of the chunks held,
    in the same order, so the counts agree and row [i] belongs to chunk [i].
    After [save_index] followed by [load_index] for the same career the
    index is the same, and rows and chunks still correspond provided every
    chunk is clean; the reloaded chunk list is otherwise not tied to the
    index. *)
Theorem C4_rows_match_chunks (career : string) (w : World) :
  (forall docs w',
     (load_documents settings (Some career) w).1 = Returns docs -> docs <> [] ->
     build_index settings encode dimension (Some career) w = (Returns tt, w') ->
     Aligned encode w' /\
     (Faiss.ntotal <$> index (self w')) = Some (length (documents (self w'))))
  /\
  (Aligned encode w ->
   Forall (fun doc => clean_chunk (page_content doc) = true) (documents (self w)) ->
   exists w1 w2,
     save_index settings career w = (Returns tt, w1) /\
     load_index settings career w1 = (Returns true, w2) /\
     index (self w2) = index (self w) /\
     Aligned encode w2 /\
     (Faiss.ntotal <$> index (self w2)) = Some (length (documents (self w2)))).
Proof.
  assert (Hcount : forall v, Aligned encode v ->
            (Faiss.ntotal <$> index (self v)) = Some (length (documents (self v)))).
  { intros v (ix & Hix & Hxb). rewrite Hix. simpl. unfold Faiss.ntotal.
    by rewrite Hxb, length_map. }
  split.
  - intros docs w' Hdocs Hne Hbuild.
    destruct (build_index_returned _ _ _ _ Hdocs Hne Hbuild) as [Hal _]. eauto.
  - intros (ix & Hix & Hxb) Hclean.
    destruct (save_then_load settings career w ix Hix)
      as (w1 & w2 & Hsave & Hload & Hix2 & Hdocs & _).
    rewrite (universal_newlines_id _ (manifest_no_cr _ Hclean)) in Hdocs.
    rewrite (parse_manifest_clean _ Hclean) in Hdocs.
    assert (Hal : Aligned encode w2).
    { exists ix. split; [exact Hix2|]. rewrite Hxb, Hdocs, map_map. reflexivity. }
    exists w1, w2. repeat split; try assumption; [congruence|eauto].
Qed.

End Alignment.

(** C4, as stated, fails: a scraped text that contains the separator line
    becomes one chunk; after [build_index], [save_index] and [load_index]
    the index holds one vector and the document list two chunks. *)
Lemma C4_counterexample :
  Aligned Demo.enc Tainted.built /\
  (save_index default_settings "python" Tainted.built).1 = Returns tt /\
  (load_index default_settings "python" Tainted.saved).1 = Returns true /\
  (Faiss.ntotal <$> index (self Tainted.reloaded)) = Some 1 /\
  length (documents (self Tainted.reloaded)) = 2.
Proof.
  split.
  - exists (Faiss.mkIndex 1 [[28%Z]]). split; vm_compute; reflexivity.
  - repeat split; vm_compute; reflexivity.
Qed.

Lemma C4_witness :
  (Aligned Demo.enc Scenario.built /\
   (Faiss.ntotal <$> index (self Scenario.built))
   = Some (length (documents (self Scenario.built))))
  /\
  exists w1 w2,
    save_index Scenario.small "python" Scenario.built = (Returns tt, w1) /\
    load_index Scenario.small "python" w1 = (Returns true, w2) /\
    index (self w2) = index (self Scenario.built) /\
    Aligned Demo.enc w2 /\
    (Faiss.ntotal <$> index (self w2)) = Some (length (documents (self w2))).
Proof.
  split.
  - apply (proj1 (C4_rows_match_chunks Scenario.small Demo.enc 1 "python" Scenario.disk)
             [mkDocument "Python is great for data science and has role in machine learning."
                [("source", "python_data.txt"); ("career", "python")]]).
    + vm_compute. reflexivity.
    + discriminate.
    + vm_compute. reflexivity.
  - apply (proj2 (C4_rows_match_chunks Scenario.small Demo.enc 1 "python" Scenario.built)).
    + exists (Faiss.mkIndex 1 [[40]; [32]; [1]]%Z). split; vm_compute; reflexivity.
    + vm_compute. repeat constructor.
Defined.

(** ** The scraped file is found again *)

Lemma rstrip_keeps (c : ascii) (s : string) :
  PyStr.is_space c = false ->
  exists r, PyStr.rstrip (String c s) = String c r.
Proof.
  intros Hc. simpl. destruct (PyStr.rstrip s); rewrite ?Hc; eauto.
Qed.

(** A text whose second character is not whitespace does not strip to the
    empty text. *)
Lemma strip_truthy (c1 c2 : ascii) (s : string) :
  PyStr.is_space c2 = false ->
  PyStr.truthy (PyStr.strip (String c1 (String c2 s))) = true.
Proof.
  intros Hc2. unfold PyStr.strip.
  destruct (rstrip_keeps c2 s Hc2) as [r Hr].
  assert (Hr1 : PyStr.rstrip (String c1 (String c2 s)) = String c1 (String c2 r)).
  { change (PyStr.rstrip (String c1 (String c2 s)))
      with (match PyStr.rstrip (String c2 s) with
            | EmptyString =>
                if PyStr.is_space c1 then EmptyString else String c1 EmptyString
            | r => String c1 r
            end).
    by rewrite Hr. }
  rewrite Hr1. simpl. destruct (PyStr.is_space c1); [|reflexivity].
  by rewrite Hc2.
Qed.

Lemma combined_text_not_blank (data : Scraped) :
  PyStr.truthy (PyStr.strip (PyStr.universal_newlines (combined_text data))) = true.
Proof.
  unfold combined_text.
  match goal with
  | |- context [PyStr.universal_newlines (?head +:+ ?tail)] =>
      change (PyStr.universal_newlines (head +:+ tail))
        with (String PyStr.LF
                (String "#"%char
                   (PyStr.universal_newlines (" Career: " +:+ tail))))
  end.
  by apply strip_truthy.
Qed.

Lemma basename_go_plain (cur n : string) :
  PyStr.contains "/" n = false -> basename_go cur n = cur +:+ n.
Proof.
  revert cur. induction n as [|c n IH]; intros cur Hno.
  - by rewrite app_nil_r_s.
  - rewrite contains_char_cons in Hno. apply orb_false_iff in Hno as [Hc Hn].
    simpl. rewrite Ascii.eqb_sym, Hc, IH by exact Hn. by rewrite app_assoc_s.
Qed.

Lemma basename_go_after_slash (cur a n : string) :
  PyStr.contains "/" n = false -> basename_go cur (a +:+ "/" +:+ n) = n.
Proof.
  intros Hn. revert cur. induction a as [|c a IH]; intros cur.
  - change (EmptyString +:+ "/" +:+ n) with (String "/"%char n). simpl.
    by rewrite basename_go_plain by exact Hn.
  - change (String c a +:+ "/" +:+ n) with (String c (a +:+ "/" +:+ n)). simpl.
    destruct (Ascii.eqb c "/"); apply IH.
Qed.

Lemma basename_after_slash (a n : string) :
  PyStr.contains "/" n = false -> basename (a +:+ "/" +:+ n) = n.
Proof. apply basename_go_after_slash. Qed.

(** Joining a directory with a plain name and taking the name again *)
Lemma basename_path_join (a n : string) :
  PyStr.contains "/" n = false -> n <> EmptyString ->
  basename (path_join a n) = n.
Proof.
  intros Hn Hne. unfold path_join.
  assert (Hst : PyStr.startswith "/" n = false).
  { destruct n as [|c n]; [done|]. rewrite contains_char_cons in Hn.
    apply orb_false_iff in Hn as [Hc _]. cbn [PyStr.startswith].
    rewrite Hc. reflexivity. }
  rewrite Hst. destruct a as [|c a].
  - simpl. unfold basename. by rewrite basename_go_plain by exact Hn.
  - cbn [PyStr.truthy negb orb].
    destruct (PyStr.endswith "/" (String c a)) eqn:He.
    + apply endswith_spec in He as [a' ->]. rewrite app_assoc_s.
      by apply basename_after_slash.
    + by apply basename_after_slash.
Qed.

Lemma path_join_endswith (a b suffix : string) :
  PyStr.endswith suffix b = true -> PyStr.endswith suffix (path_join a b) = true.
Proof.
  rewrite !endswith_spec. intros [x ->]. unfold path_join.
  destruct (PyStr.startswith "/" (x +:+ suffix)); [by exists x|].
  destruct (negb (PyStr.truthy a) || PyStr.endswith "/" a).
  - exists (a +:+ x). by rewrite app_assoc_s.
  - exists (a +:+ "/" +:+ x). by rewrite !app_assoc_s.
Qed.

Lemma load_files_cons (career : option string) (file : string) (rest : list string)
    (docs : list Document) (v : World) :
  exists docs1 msgs1,
    load_files career (file :: rest) docs v = load_files career rest docs1 (say msgs1 v) /\
    length docs <= length docs1 /\
    (forall txt, files v !! file = Some (TextFile txt) ->
       PyStr.truthy (PyStr.strip (PyStr.universal_newlines txt)) = true ->
       length docs < length docs1).
Proof.
  cbn [load_files]. unfold mbind at 1, Py_bind at 1, try_except.
  unfold mbind at 1, Py_bind at 1, read_text.
  destruct (files v !! file) as [[s| |]|] eqn:E.
  - destruct (PyStr.truthy (PyStr.strip (PyStr.universal_newlines s))) eqn:Ht.
    + eexists _, []. rewrite say_nil. split; [reflexivity|].
      rewrite length_app. simpl. split; [lia|]. intros; lia.
    + eexists _, []. rewrite say_nil. split; [reflexivity|]. split; [lia|].
      intros txt Htxt. injection Htxt as <-. congruence.
  - eexists _, [ErrorReading file]. split; [reflexivity|]. split; [lia|]. done.
  - eexists _, [ErrorReading file]. split; [reflexivity|]. split; [lia|]. done.
  - eexists _, [ErrorReading file]. split; [reflexivity|]. split; [lia|]. done.
Qed.

(** Every readable, non-blank file in the list adds a document. *)
Lemma load_files_grows (career : option string) (fs : list string)
    (docs : list Document) (v : World) :
  exists docs' msgs,
    load_files career fs docs v = (Returns docs', say msgs v) /\
    length docs <= length docs' /\
    (forall target txt,
       target ∈ fs -> files v !! target = Some (TextFile txt) ->
       PyStr.truthy (PyStr.strip (PyStr.universal_newlines txt)) = true ->
       length docs < length docs').
Proof.
  revert docs v. induction fs as [|file rest IH]; intros docs v.
  - exists docs, []. rewrite say_nil. split; [reflexivity|]. split; [lia|].
    intros target txt Hin. by apply elem_of_nil in Hin.
  - destruct (load_files_cons career file rest docs v)
      as (docs1 & msgs1 & Hstep & Hle & Hlt).
    destruct (IH docs1 (say msgs1 v)) as (docs' & msgs & Hrest & Hle' & Hlt').
    exists docs', (msgs1 ++ msgs). rewrite Hstep, Hrest, say_say.
    split; [reflexivity|]. split; [lia|].
    intros target txt Hin Hfile Htxt.
    apply elem_of_cons in Hin as [-> | Hin].
    + specialize (Hlt txt Hfile Htxt). lia.
    + specialize (Hlt' target txt Hin Hfile Htxt). lia.
Qed.

Section Agent.
Variable settings : Settings.
Variable encode : string -> Faiss.vec.
Variable dimension : nat.
Variable scrape_all_sources : string -> Scraped.

(** Once the scraped text is on disk, [load_documents] finds at least one
    document, whether it looks the file up by name or lists the folder. *)
Lemma load_documents_finds (career : string) (v : World) (txt : string) :
  RAW_DATA_PATH settings ∈ dirs v ->
  files v !! data_file settings career = Some (TextFile txt) ->
  PyStr.truthy (PyStr.strip (PyStr.universal_newlines txt)) = true ->
  exists docs msgs,
    load_documents settings (Some career) v = (Returns docs, say msgs v) /\
    docs <> [].
Proof.
  intros Hdir Hfile Htxt.
  assert (Hthere : exists_ (RAW_DATA_PATH settings) v = (Returns true, v)).
  { unfold exists_. rewrite (bool_decide_eq_true_2 (_ ∈ dirs v) Hdir).
    by rewrite orb_true_r. }
  assert (Htail : forall fs, data_file settings career ∈ fs ->
            exists docs msgs,
              (load_files (Some career) fs []
               ≫= λ docs0 : list Document,
                    print (LoadedDocuments (length docs0)) ≫= λ _ : (), mret docs0) v
              = (Returns docs, say msgs v) /\ docs <> []).
  { intros fs Hin.
    destruct (load_files_grows (Some career) fs [] v) as (docs & msgs & Hload & _ & Hlt).
    exists docs, (msgs ++ [LoadedDocuments (length docs)]). split.
    - rewrite (bind_returns _ _ _ _ _ Hload).
      unfold mbind, Py_bind, print, mret, Py_ret, say. simpl. by rewrite app_assoc.
    - specialize (Hlt _ _ Hin Hfile Htxt). destruct docs; [simpl in Hlt; lia|done]. }
  unfold load_documents. rewrite (bind_returns _ _ _ _ _ Hthere).
  cbv beta iota zeta. cbn [negb]. fold (data_file settings career).
  destruct career as [|c career]; cbn [PyStr.truthy].
  - erewrite bind_returns; [|reflexivity]. apply Htail.
    apply list_elem_of_In, filter_In. split.
    + apply list_elem_of_In,
        (list_elem_of_fmap_2 fst _ (data_file settings EmptyString, TextFile txt)).
      by apply elem_of_map_to_list.
    + apply andb_true_iff. split.
      * unfold data_file. by apply path_join_endswith.
      * apply bool_decide_eq_true_2. unfold data_file.
        by rewrite basename_path_join.
  - erewrite bind_returns;
      [|erewrite bind_returns; [reflexivity|apply (exists_present _ _ _ Hfile)]].
    apply Htail. apply list_elem_of_here.
Qed.

End Agent.

(** ** Load or build *)

Section LoadOrBuild.
Variable settings : Settings.
Variable encode : string -> Faiss.vec.
Variable dimension : nat.
Variable scrape_all_sources : string -> Scraped.

(** The four ways [load_index] can end *)
Lemma load_index_cases (career : string) (w : World) :
  load_index settings career w
  = (Returns false, say [IndexFileNotFound (index_file settings career)] w)
  \/ (exists e, load_index settings career w = (Raises e, w))
  \/ (exists ix s,
        files w !! index_file settings career = Some (IndexFile ix) /\
        files w !! docs_file settings career = Some (TextFile s))
  \/ (exists ix,
        load_index settings career w
        = (Returns false,
           mkWorld (mkRetriever (Some ix) (documents (self w))) (files w) (dirs w)
             (console w ++ [ErrorReadingDocumentFile]))).
Proof.
  unfold load_index.
  assert (Hex : exists b, exists_ (index_file settings career) w = (Returns b, w))
    by (eexists; reflexivity).
  destruct Hex as [b Hex]. rewrite (bind_returns _ _ _ _ _ Hex).
  destruct b; cbn [negb].
  - destruct (files w !! index_file settings career) as [[s|ix|]|] eqn:Hi.
    + right; left. exists RuntimeError.
      apply bind_raises. unfold read_index. by rewrite Hi.
    + destruct (files w !! docs_file settings career) as [[s| |]|] eqn:Hd.
      * right; right; left. eauto.
      * right; right; right. exists ix.
        unfold mbind, Py_bind, read_index. rewrite Hi. simpl.
        unfold try_except, read_text. simpl. rewrite Hd. reflexivity.
      * right; right; right. exists ix.
        unfold mbind, Py_bind, read_index. rewrite Hi. simpl.
        unfold try_except, read_text. simpl. rewrite Hd. reflexivity.
      * right; right; right. exists ix.
        unfold mbind, Py_bind, read_index. rewrite Hi. simpl.
        unfold try_except, read_text. simpl. rewrite Hd. reflexivity.
    + right; left. exists RuntimeError.
      apply bind_raises. unfold read_index. by rewrite Hi.
    + right; left. exists RuntimeError.
      apply bind_raises. unfold read_index. by rewrite Hi.
  - left. reflexivity.
Qed.

(** With both files in place a call loads them and returns [True]; nothing
    on disk changes. *)
Lemma get_or_create_loads (career : string) (w : World)
    (ix : Faiss.IndexFlatL2) (s : string) :
  files w !! index_file settings career = Some (IndexFile ix) ->
  files w !! docs_file settings career = Some (TextFile s) ->
  exists w',
    _get_or_create_index settings encode dimension scrape_all_sources career w
    = (Returns true, w') /\
    index (self w') = Some ix /\ files w' = files w.
Proof.
  intros Hi Hd. eexists. unfold _get_or_create_index.
  rewrite (bind_returns _ _ _ _ _ (load_index_readable settings career w ix s Hi Hd)).
  split; [reflexivity|]. split; reflexivity.
Qed.

Lemma print_run (m : Msg) (v : World) : print m v = (Returns tt, say [m] v).
Proof. reflexivity. Qed.

Lemma save_scraped_data_run (career : string) (data : Scraped) (v : World) :
  save_scraped_data settings career data v
  = (Returns (data_file settings career),
     mkWorld (self v)
       (<[data_file settings career := TextFile (combined_text data)]> (files v))
       ({[RAW_DATA_PATH settings]} ∪ dirs v)
       (console v ++ [DataSaved (data_file settings career)])).
Proof. reflexivity. Qed.

(** The build branch: what follows a failed load.  If it returns, it returns
    [True] with an index installed and both files written. *)
Lemma build_branch (career : string) (v w1 : World) (b : bool) :
  (_ ← print (BuildingNewIndex career);
   _ ← print (CollectingData career);
   _ ← save_scraped_data settings career (scrape_all_sources career);
   _ ← build_index settings encode dimension (Some career);
   _ ← save_index settings career;
   mret true) v = (Returns b, w1) ->
  b = true /\
  exists ix s,
    index (self w1) = Some ix /\
    files w1 !! index_file settings career = Some (IndexFile ix) /\
    files w1 !! docs_file settings career = Some (TextFile s).
Proof.
  rewrite (bind_returns _ _ _ _ _ (print_run _ _)).
  rewrite (bind_returns _ _ _ _ _ (print_run _ _)).
  rewrite (bind_returns _ _ _ _ _ (save_scraped_data_run _ _ _)).
  set (vs := mkWorld _ _ _ _).
  assert (Hfound : exists docs msgs,
            load_documents settings (Some career) vs = (Returns docs, say msgs vs) /\
            docs <> []).
  { apply (load_documents_finds settings career vs
             (combined_text (scrape_all_sources career))).
    - subst vs. simpl. set_solver.
    - subst vs. simpl. apply lookup_insert_eq.
    - apply combined_text_not_blank. }
  destruct Hfound as (docs & msgs & Hdocs & Hne).
  destruct (build_index settings encode dimension (Some career) vs) as [[[]|e] vb] eqn:Hb.
  - destruct (build_index_returned settings encode dimension (Some career) vs vb docs)
      as ((ix & Hix & _) & _ & _); [by rewrite Hdocs|exact Hne|exact Hb|].
    rewrite (bind_returns _ _ _ _ _ Hb).
    rewrite (bind_returns _ _ _ _ _ (save_index_some settings career vb ix Hix)).
    intros Heq. injection Heq as <- <-. split; [reflexivity|].
    exists ix, (manifest (documents (self vb))). simpl.
    split; [exact Hix|]. split.
    + rewrite lookup_insert_ne by (apply not_eq_sym, index_file_ne_docs_file).
      apply lookup_insert_eq.
    + apply lookup_insert_eq.
  - rewrite (bind_raises _ _ _ _ _ Hb). discriminate.
Qed.

(** What a returned call leaves behind: an index in memory that is also in
    the career's index file, and a manifest that either was just read into
    the chunk list (the load branch) or was just written from it (the build
    branch). *)
Lemma get_or_create_state (career : string) (w w1 : World) (b : bool) :
  _get_or_create_index settings encode dimension scrape_all_sources career w
  = (Returns b, w1) ->
  b = true /\
  exists ix s,
    index (self w1) = Some ix /\
    files w1 !! index_file settings career = Some (IndexFile ix) /\
    files w1 !! docs_file settings career = Some (TextFile s) /\
    (documents (self w1) = parse_manifest (PyStr.universal_newlines s)
     \/ s = manifest (documents (self w1))).
Proof.
  intros Hrun. unfold _get_or_create_index in Hrun.
  assert (Hbuilt : forall v,
            (_ ← print (BuildingNewIndex career);
             _ ← print (CollectingData career);
             _ ← save_scraped_data settings career (scrape_all_sources career);
             _ ← build_index settings encode dimension (Some career);
             _ ← save_index settings career;
             mret true) v = (Returns b, w1) ->
            b = true /\
            exists ix s,
              index (self w1) = Some ix /\
              files w1 !! index_file settings career = Some (IndexFile ix) /\
              files w1 !! docs_file settings career = Some (TextFile s) /\
              (documents (self w1) = parse_manifest (PyStr.universal_newlines s)
               \/ s = manifest (documents (self w1)))).
  { intros v Hv. destruct (build_branch career v w1 b Hv) as (-> & ix & s & Hix & Hi & Hd).
    split; [reflexivity|]. exists ix, s. repeat split; try assumption. right.
    revert Hv.
    rewrite (bind_returns _ _ _ _ _ (print_run _ _)).
    rewrite (bind_returns _ _ _ _ _ (print_run _ _)).
    rewrite (bind_returns _ _ _ _ _ (save_scraped_data_run _ _ _)).
    set (vs := mkWorld _ _ _ _).
    destruct (build_index settings encode dimension (Some career) vs)
      as [[[]|e] vb] eqn:Hb.
    - rewrite (bind_returns _ _ _ _ _ Hb).
      destruct (index (self vb)) as [ix'|] eqn:Hix'.
      + rewrite (bind_returns _ _ _ _ _ (save_index_some settings career vb ix' Hix')).
        intros Heq. injection Heq as <-. simpl in Hd. simpl.
        rewrite lookup_insert_eq in Hd. by injection Hd as <-.
      + unfold save_index, mbind, Py_bind, get_index. rewrite Hix'.
        intros Heq. injection Heq as <-. simpl in Hix. congruence.
    - rewrite (bind_raises _ _ _ _ _ Hb). discriminate. }
  destruct (load_index_cases career w)
    as [Hl | [[e Hl] | [(ix & s & Hi & Hd) | [ix Hl]]]].
  - rewrite (bind_returns _ _ _ _ _ Hl) in Hrun. by apply Hbuilt in Hrun.
  - rewrite (bind_raises _ _ _ _ _ Hl) in Hrun. discriminate Hrun.
  - rewrite (bind_returns _ _ _ _ _ (load_index_readable settings career w ix s Hi Hd))
      in Hrun.
    injection Hrun as <- <-. split; [reflexivity|]. exists ix, s. simpl.
    repeat split; try assumption. by left.
  - rewrite (bind_returns _ _ _ _ _ Hl) in Hrun. by apply Hbuilt in Hrun.
Qed.

(** Picking an element by position sees only the texts when two lists have
    the same texts. *)
Lemma getitem_texts (da db : list Document) (i : Z) :
  map page_content da = map page_content db ->
  match getitem da i, getitem db i with
  | Returns x, Returns y => page_content x = page_content y
  | Raises e1, Raises e2 => e1 = e2
  | _, _ => False
  end.
Proof.
  intros Heq.
  assert (Hlen : length da = length db)
    by (rewrite <- (length_map page_content da), Heq; apply length_map).
  unfold getitem. rewrite Hlen. destruct (_ <? 0)%Z; [reflexivity|].
  set (n := Z.to_nat _).
  assert (Hn : page_content <$> da !! n = page_content <$> db !! n)
    by (rewrite <- !list_lookup_fmap; by f_equal).
  destruct (da !! n), (db !! n); simpl in Hn; try discriminate Hn;
    [by injection Hn|reflexivity].
Qed.

Lemma collect_texts (da db : list Document) (labels : list Z) :
  map page_content da = map page_content db ->
  forall acca accb,
    map page_content acca = map page_content accb ->
    result_texts (collect da labels acca) = result_texts (collect db labels accb).
Proof.
  intros Heq.
  assert (Hlen : length da = length db)
    by (rewrite <- (length_map page_content da), Heq; apply length_map).
  induction labels as [|idx rest IH]; intros acca accb Hacc.
  - simpl. by rewrite Hacc.
  - cbn [collect]. rewrite Hlen. destruct (idx <? _)%Z; [|by apply IH].
    pose proof (getitem_texts da db idx Heq) as Hget.
    destruct (getitem da idx) as [x|e1], (getitem db idx) as [y|e2];
      try contradiction; cbn [mbind outcome_bind].
    + apply IH. rewrite !map_app. simpl. by rewrite Hacc, Hget.
    + simpl. by rewrite Hget.
Qed.

(** [retrieve] returns the same texts on two retrievers with the same index
    and the same chunk texts. *)
Lemma retrieve_texts (query : string) (k : option Z) (wa wb : World) :
  index (self wa) = index (self wb) ->
  map page_content (documents (self wa)) = map page_content (documents (self wb)) ->
  result_texts (retrieve settings encode query k wa).1
  = result_texts (retrieve settings encode query k wb).1.
Proof.
  intros Hix Hdocs. unfold retrieve, mbind, Py_bind, get_index. rewrite Hix.
  destruct (index (self wb)) as [ix|]; [|reflexivity].
  unfold lift at 1 3.
  destruct (Faiss.search ix (encode query) (k_or_default settings k)) as [labels|e];
    [|reflexivity].
  unfold get_documents, lift.
  pose proof (collect_texts _ _ labels Hdocs [] [] eq_refl) as Hcollect.
  destruct (collect (documents (self wa)) labels []),
           (collect (documents (self wb)) labels []);
    simpl in Hcollect; try discriminate Hcollect; exact Hcollect.
Qed.

(** C8 (amended): whenever [_get_or_create_index] returns, it returns [True]
    and the retriever has an index.  A second call for the same career then
    returns [True] again, writes nothing and leaves the retriever with the
    very same index (the same vectors in the same order, hence the same
    size).  When every chunk text held after the first call is clean, the
    chunk texts after the second call are the same, and [retrieve] returns
    the same texts for every query and [k]. *)
Theorem C8_get_or_create_idempotent (career : string) (w w1 : World) (b : bool) :
  _get_or_create_index settings encode dimension scrape_all_sources career w
  = (Returns b, w1) ->
  b = true /\
  is_Some (index (self w1)) /\
  exists w2,
    _get_or_create_index settings encode dimension scrape_all_sources career w1
    = (Returns true, w2) /\
    index (self w2) = index (self w1) /\
    files w2 = files w1 /\
    (Forall (fun doc => clean_chunk (page_content doc) = true) (documents (self w1)) ->
     map page_content (documents (self w2)) = map page_content (documents (self w1)) /\
     forall query k,
       result_texts (retrieve settings encode query k w2).1
       = result_texts (retrieve settings encode query k w1).1).
Proof.
  intros Hrun.
  destruct (get_or_create_state career w w1 b Hrun)
    as (-> & ix & s & Hix & Hi & Hd & Hdocs).
  split; [reflexivity|]. split; [rewrite Hix; eauto|].
  eexists. split.
  { unfold _get_or_create_index.
    rewrite (bind_returns _ _ _ _ _ (load_index_readable settings career w1 ix s Hi Hd)).
    reflexivity. }
  cbn [self index documents files].
  split; [by rewrite Hix|]. split; [reflexivity|].
  intros Hclean.
  assert (Htexts : map page_content (parse_manifest (PyStr.universal_newlines s))
                   = map page_content (documents (self w1))).
  { destruct Hdocs as [-> | ->]; [reflexivity|].
    rewrite (universal_newlines_id _ (manifest_no_cr _ Hclean)).
    rewrite (parse_manifest_clean _ Hclean), map_map. reflexivity. }
  split; [exact Htexts|].
  intros query k. apply retrieve_texts; cbn [self index documents];
    [by rewrite Hix|exact Htexts].
Qed.

End LoadOrBuild.

(** C8, as stated, fails.  A scraped text that contains the separator line
    is built into one chunk; the second call reads two chunks back from the
    manifest, and the same query then returns a different text.  And the
    returned [True] does not mean Ready: on a disk whose index file holds
    two vectors and whose manifest holds one chunk the call returns [True]. *)
Lemma C8_counterexample :
  (_get_or_create_index default_settings Demo.enc 1 Rescraped.scr "python"
     Demo.fresh).1 = Returns true /\
  (_get_or_create_index default_settings Demo.enc 1 Rescraped.scr "python"
     Rescraped.first).1 = Returns true /\
  files Rescraped.second = files Rescraped.first /\
  index (self Rescraped.second) = index (self Rescraped.first) /\
  length (documents (self Rescraped.first)) = 1 /\
  length (documents (self Rescraped.second)) = 2 /\
  result_texts (retrieve default_settings Demo.enc "q" (Some 1%Z) Rescraped.second).1
  <> result_texts (retrieve default_settings Demo.enc "q" (Some 1%Z) Rescraped.first).1 /\
  (_get_or_create_index default_settings Demo.enc 1 Demo.scr "python"
     Persisted.mismatched).1 = Returns true /\
  ~ Ready Demo.enc
      (_get_or_create_index default_settings Demo.enc 1 Demo.scr "python"
         Persisted.mismatched).2.
Proof.
  split; [vm_compute; reflexivity|]. split; [vm_compute; reflexivity|].
  split; [vm_compute; reflexivity|]. split; [vm_compute; reflexivity|].
  split; [vm_compute; reflexivity|]. split; [vm_compute; reflexivity|].
  split; [vm_compute; discriminate|]. split; [vm_compute; reflexivity|].
  intros (ix & Hix & _ & Hxb & _).
  vm_compute in Hix. injection Hix as <-. vm_compute in Hxb. discriminate Hxb.
Qed.

Lemma C8_witness :
  let first := _get_or_create_index default_settings Demo.enc 1 Demo.scr "python"
                 Demo.fresh in
  first.1 = Returns true /\
  is_Some (index (self first.2)) /\
  exists w2,
    _get_or_create_index default_settings Demo.enc 1 Demo.scr "python" first.2
    = (Returns true, w2) /\
    index (self w2) = index (self first.2) /\
    files w2 = files first.2 /\
    map page_content (documents (self w2)) = map page_content (documents (self first.2)) /\
    forall query k,
      result_texts (retrieve default_settings Demo.enc query k w2).1
      = result_texts (retrieve default_settings Demo.enc query k first.2).1.
Proof.
  intros first. split; [vm_compute; reflexivity|].
  destruct (C8_get_or_create_idempotent default_settings Demo.enc 1 Demo.scr "python"
              Demo.fresh first.2 true)
    as (_ & Hindex & w2 & Hsecond & Hix & Hfiles & Hclean);
    [vm_compute; reflexivity|].
  split; [exact Hindex|]. exists w2.
  split; [exact Hsecond|]. split; [exact Hix|]. split; [exact Hfiles|].
  apply Hclean. vm_compute. repeat constructor.
Defined.

(** ** The chunker never exceeds the chunk size *)

Lemma len_nonneg (s : string) : (0 <= len s)%Z.
Proof. unfold len. lia. Qed.

Lemma len_app (a b : string) : len (a +:+ b) = (len a + len b)%Z.
Proof. unfold len. rewrite length_app_s. lia. Qed.

Lemma total_len_nonneg (pieces : list string) : (0 <= total_len pieces)%Z.
Proof.
  induction pieces as [|p rest IH]; simpl; [lia|]. pose proof (len_nonneg p). lia.
Qed.

Lemma total_len_app (l1 l2 : list string) :
  total_len (l1 ++ l2) = (total_len l1 + total_len l2)%Z.
Proof. induction l1 as [|p rest IH]; simpl; lia. Qed.

Lemma lstrip_len (s : string) : (len (PyStr.lstrip s) <= len s)%Z.
Proof.
  unfold len. induction s as [|c s IH]; simpl; [lia|].
  destruct (PyStr.is_space c); simpl; lia.
Qed.

Lemma rstrip_len (s : string) : (len (PyStr.rstrip s) <= len s)%Z.
Proof.
  unfold len. induction s as [|c s IH]; simpl; [lia|].
  destruct (PyStr.rstrip s); [destruct (PyStr.is_space c)|]; simpl in *; lia.
Qed.

Lemma strip_len (s : string) : (len (PyStr.strip s) <= len s)%Z.
Proof.
  unfold PyStr.strip. pose proof (lstrip_len (PyStr.rstrip s)).
  pose proof (rstrip_len s). lia.
Qed.

Lemma join_empty_len (pieces : list string) :
  len (PyStr.join EmptyString pieces) = total_len pieces.
Proof.
  induction pieces as [|p rest IH]; [reflexivity|].
  destruct rest as [|q rest].
  - simpl. lia.
  - change (PyStr.join EmptyString (p :: q :: rest))
      with (p +:+ EmptyString +:+ PyStr.join EmptyString (q :: rest)).
    rewrite !len_app, IH. simpl. change (len EmptyString) with 0%Z. lia.
Qed.

Lemma join_docs_len (pieces : list string) (t : string) :
  Langchain.join_docs pieces EmptyString = Some t -> (len t <= total_len pieces)%Z.
Proof.
  unfold Langchain.join_docs.
  destruct (PyStr.truthy _); [|discriminate]. intros Heq. injection Heq as <-.
  pose proof (strip_len (PyStr.join EmptyString pieces)).
  rewrite join_empty_len in H. exact H.
Qed.

Section ChunkBound.
Variables chunk_size chunk_overlap : Z.
Hypothesis overlap_nonneg : (0 <= chunk_overlap)%Z.
Hypothesis size_pos : (0 < chunk_size)%Z.

(** The front-dropping loop ends without raising, with the total still the
    summed length of what is left, and with room for the next piece. *)
Lemma pop_front_ok (_len : Z) (current_doc : list string) :
  exists total' current_doc',
    Langchain.pop_front chunk_size chunk_overlap 0 _len
      (total_len current_doc) current_doc
    = Returns (total', current_doc') /\
    total' = total_len current_doc' /\
    ((total' + _len <= chunk_size)%Z \/ (total' <= 0)%Z).
Proof.
  induction current_doc as [|d0 rest IH].
  - exists 0%Z, []. simpl.
    replace (chunk_overlap <? 0)%Z with false by (symmetry; apply Z.ltb_ge; lia).
    rewrite andb_false_r. simpl. split; [reflexivity|]. split; [reflexivity|lia].
  - cbn [Langchain.pop_front].
    destruct ((chunk_overlap <? total_len (d0 :: rest))%Z
              || (chunk_size <? total_len (d0 :: rest) + _len
                    + (if nonempty (d0 :: rest) then 0 else 0))%Z
                 && (0 <? total_len (d0 :: rest))%Z) eqn:Hcond.
    + replace (total_len (d0 :: rest)
               - (len d0 + (if (1 <? length (d0 :: rest))%nat then 0 else 0)))%Z
        with (total_len rest)
        by (simpl; destruct (1 <? S (length rest))%nat; lia).
      exact IH.
    + exists (total_len (d0 :: rest)), (d0 :: rest).
      split; [reflexivity|]. split; [reflexivity|].
      apply orb_false_iff in Hcond as [_ Hcond].
      apply andb_false_iff in Hcond as [Hc | Hc]; apply Z.ltb_ge in Hc.
      * left. simpl in Hc. simpl. lia.
      * right. exact Hc.
Qed.

(** Merging pieces that are each shorter than the chunk size yields texts
    within the chunk size. *)
Lemma merge_loop_ok (splits docs current_doc : list string) :
  Forall (fun s => (len s < chunk_size)%Z) splits ->
  Forall (fun s => (len s <= chunk_size)%Z) docs ->
  (total_len current_doc <= chunk_size)%Z ->
  exists docs',
    Langchain.merge_loop chunk_size chunk_overlap EmptyString splits docs current_doc
      (total_len current_doc)
    = Returns docs' /\
    Forall (fun s => (len s <= chunk_size)%Z) docs'.
Proof.
  intros Hsplits. revert docs current_doc.
  induction Hsplits as [|d rest Hd _ IH]; intros docs current_doc Hdocs Htotal.
  - simpl. eexists. split; [reflexivity|].
    apply Forall_app. split; [exact Hdocs|].
    destruct (Langchain.join_docs current_doc EmptyString) as [t|] eqn:Hj; simpl;
      [|constructor].
    apply join_docs_len in Hj. repeat constructor. lia.
  - cbn [Langchain.merge_loop]. change (len EmptyString) with 0%Z.
    assert (Hemit : Forall (fun s => (len s <= chunk_size)%Z)
                      (docs ++ option_list (Langchain.join_docs current_doc EmptyString))).
    { apply Forall_app. split; [exact Hdocs|].
      destruct (Langchain.join_docs current_doc EmptyString) as [t|] eqn:Hj; simpl;
        [|constructor].
      apply join_docs_len in Hj. repeat constructor. lia. }
    assert (Hstep : forall cur,
              (if (1 <? length (cur ++ [d]))%nat then 0 else 0)%Z = 0%Z)
      by (intros; by destruct (_ <? _)%nat).
    destruct ((chunk_size <? total_len current_doc + len d
                 + (if nonempty current_doc then 0 else 0))%Z
              && nonempty current_doc) eqn:Hcond.
    + destruct (pop_front_ok (len d) current_doc)
        as (total' & cur' & Hpop & -> & Hroom).
      rewrite Hpop. cbn [mbind outcome_bind mret outcome_ret].
      rewrite Hstep, Z.add_0_r.
      replace (total_len cur' + len d)%Z with (total_len (cur' ++ [d]))
        by (rewrite total_len_app; simpl; lia).
      apply IH; [exact Hemit|].
      rewrite total_len_app. simpl.
      pose proof (total_len_nonneg cur'). lia.
    + cbn [mbind outcome_bind mret outcome_ret].
      rewrite Hstep, Z.add_0_r.
      replace (total_len current_doc + len d)%Z with (total_len (current_doc ++ [d]))
        by (rewrite total_len_app; simpl; lia).
      apply IH; [exact Hdocs|].
      rewrite total_len_app. simpl.
      apply andb_false_iff in Hcond as [Hc | Hc].
      * apply Z.ltb_ge in Hc. destruct (nonempty current_doc); lia.
      * destruct current_doc; [simpl; lia|discriminate Hc].
Qed.

Lemma merge_splits_ok (splits : list string) :
  Forall (fun s => (len s < chunk_size)%Z) splits ->
  exists docs,
    Langchain.merge_splits chunk_size chunk_overlap splits EmptyString = Returns docs /\
    Forall (fun s => (len s <= chunk_size)%Z) docs.
Proof.
  intros Hs. unfold Langchain.merge_splits.
  apply (merge_loop_ok splits [] [] Hs); [constructor|simpl; lia].
Qed.

End ChunkBound.

Lemma chars_single (text : string) :
  Forall (fun s => len s = 1%Z) (PyStr.chars text).
Proof. induction text as [|c text IH]; simpl; constructor; [reflexivity|exact IH]. Qed.

Lemma Forall_filter_keep {A} (P : A -> Prop) (f : A -> bool) (l : list A) :
  Forall P l -> Forall P (List.filter f l).
Proof.
  induction 1 as [|x l Hx _ IH]; simpl; [constructor|].
  destruct (f x); [constructor; assumption|assumption].
Qed.

Section SplitBound.
Variables chunk_size chunk_overlap : Z.
Hypothesis overlap_nonneg : (0 <= chunk_overlap)%Z.
Hypothesis size_pos : (0 < chunk_size)%Z.

(** What the loop of [_split_text] needs of the recursive call: it returns
    chunks within the size; without a recursive call, every piece must
    already be within the size. *)
Lemma split_loop_ok (deeper : option (string -> outcome (list string)))
    (splits final_chunks good : list string) :
  match deeper with
  | Some f =>
      forall s, exists chunks,
        f s = Returns chunks /\ Forall (fun c => (len c <= chunk_size)%Z) chunks
  | None => Forall (fun s => (len s <= chunk_size)%Z) splits
  end ->
  Forall (fun c => (len c <= chunk_size)%Z) final_chunks ->
  Forall (fun s => (len s < chunk_size)%Z) good ->
  exists chunks,
    Langchain.split_loop chunk_size chunk_overlap deeper splits final_chunks good
    = Returns chunks /\
    Forall (fun c => (len c <= chunk_size)%Z) chunks.
Proof.
  revert final_chunks good.
  induction splits as [|s rest IH]; intros final_chunks good Hdeeper Hfinal Hgood.
  - cbn [Langchain.split_loop]. destruct (nonempty good).
    + destruct (merge_splits_ok chunk_size chunk_overlap overlap_nonneg size_pos
                  good Hgood) as (merged & -> & Hmerged).
      cbn [mbind outcome_bind mret outcome_ret]. eexists. split; [reflexivity|].
      apply Forall_app. by split.
    + eauto.
  - assert (Hrest : match deeper with
                    | Some f =>
                        forall s, exists chunks,
                          f s = Returns chunks /\
                          Forall (fun c => (len c <= chunk_size)%Z) chunks
                    | None => Forall (fun s => (len s <= chunk_size)%Z) rest
                    end).
    { destruct deeper; [exact Hdeeper|]. by apply Forall_cons in Hdeeper as [_ ?]. }
    cbn [Langchain.split_loop]. destruct (len s <? chunk_size)%Z eqn:Hs.
    + apply IH; [exact Hrest|exact Hfinal|].
      apply Forall_app. split; [exact Hgood|]. repeat constructor.
      by apply Z.ltb_lt.
    + assert (Hflush : exists final',
                (if nonempty good then
                   merged_text ← Langchain.merge_splits chunk_size chunk_overlap good
                                   EmptyString;
                   mret (final_chunks ++ merged_text)
                 else mret final_chunks) = Returns final' /\
                Forall (fun c => (len c <= chunk_size)%Z) final').
      { destruct (nonempty good); [|eauto].
        destruct (merge_splits_ok chunk_size chunk_overlap overlap_nonneg size_pos
                    good Hgood) as (merged & -> & Hmerged).
        cbn [mbind outcome_bind mret outcome_ret]. eexists. split; [reflexivity|].
        apply Forall_app. by split. }
      destruct Hflush as (final' & -> & Hfinal').
      cbn [mbind outcome_bind].
      assert (Hother : exists other,
                match deeper with
                | Some f => f s
                | None => mret [s]
                end = Returns other /\
                Forall (fun c => (len c <= chunk_size)%Z) other).
      { destruct deeper as [f|].
        - apply Hdeeper.
        - apply Forall_cons in Hdeeper as [Hslen _]. exists [s].
          split; [reflexivity|]. by repeat constructor. }
      destruct Hother as (other & -> & Hother).
      cbn [mbind outcome_bind].
      apply IH; [exact Hrest| |constructor].
      apply Forall_app. by split.
Qed.

(** With the empty separator in the list the recursion always ends in a
    character-by-character cut, so every chunk is within the size. *)
Lemma split_text_ok (separators : list string) :
  EmptyString ∈ separators ->
  forall text, exists chunks,
    Langchain.split_text chunk_size chunk_overlap separators text = Returns chunks /\
    Forall (fun c => (len c <= chunk_size)%Z) chunks.
Proof.
  induction separators as [|_s rest IH]; intros Hin text.
  - by apply elem_of_nil in Hin.
  - cbn [Langchain.split_text]. destruct _s as [|c _s].
    + cbn [PyStr.truthy negb]. unfold Langchain.split_with.
      apply split_loop_ok; [|constructor|constructor].
      unfold Langchain.split_text_with_regex. cbn [PyStr.truthy].
      apply Forall_filter_keep.
      eapply Forall_impl; [apply chars_single|]. intros s Hs. simpl in Hs. lia.
    + cbn [PyStr.truthy negb].
      apply elem_of_cons in Hin as [Hin | Hin]; [discriminate Hin|].
      assert (Hne : nonempty rest = true).
      { destruct rest; [by apply elem_of_nil in Hin|reflexivity]. }
      rewrite Hne. destruct (PyStr.contains (String c _s) text).
      * unfold Langchain.split_with. apply split_loop_ok; [|constructor|constructor].
        intros s. by apply IH.
      * by apply IH.
Qed.

End SplitBound.

Section SplitDocuments.
Variable settings : Settings.
Hypothesis size_pos : (0 < CHUNK_SIZE settings)%Z.
Hypothesis overlap_pos : (0 < CHUNK_OVERLAP settings)%Z.
Hypothesis overlap_below : (CHUNK_OVERLAP settings < CHUNK_SIZE settings)%Z.

Lemma create_documents_ok (docs : list Document) :
  exists chunks,
    create_documents settings docs = Returns chunks /\
    Forall (fun c => (len (page_content c) <= CHUNK_SIZE settings)%Z) chunks.
Proof.
  induction docs as [|doc rest (others & Hothers & Hbound)].
  - exists []. split; [reflexivity|constructor].
  - cbn [create_documents].
    destruct (split_text_ok (CHUNK_SIZE settings) (CHUNK_OVERLAP settings)
                ltac:(lia) size_pos
                ["

"; "
"; "."; " "; EmptyString] ltac:(set_solver) (page_content doc))
      as (chunks & -> & Hchunks).
    rewrite Hothers. cbn [mbind outcome_bind mret outcome_ret].
    eexists. split; [reflexivity|].
    apply Forall_app. split; [|exact Hbound].
    apply Forall_fmap. eapply Forall_impl; [exact Hchunks|]. by intros c Hc.
Qed.

(** C9: with a positive chunk size and a positive overlap smaller than the
    size, [split_documents] returns for every sequence of documents, and
    every chunk it returns has at most [CHUNK_SIZE] characters. *)
Theorem C9_chunks_within_size (docs : list Document) (w : World) :
  exists chunks,
    split_documents settings docs w
    = (Returns chunks, say [SplitInto (length chunks)] w) /\
    Forall (fun c => (len (page_content c) <= CHUNK_SIZE settings)%Z) chunks.
Proof.
  destruct (create_documents_ok docs) as (chunks & Hcreate & Hbound).
  exists chunks. split; [|exact Hbound].
  unfold split_documents.
  replace (CHUNK_SIZE settings <? CHUNK_OVERLAP settings)%Z with false
    by (symmetry; apply Z.ltb_ge; lia).
  unfold mbind, Py_bind, lift. rewrite Hcreate. reflexivity.
Qed.

End SplitDocuments.

Lemma C9_witness :
  exists chunks,
    split_documents Scenario.small
      [mkDocument "Python is great for data science and has role in machine learning." []]
      Demo.fresh
    = (Returns chunks, say [SplitInto (length chunks)] Demo.fresh) /\
    Forall (fun c => (len (page_content c) <= 40)%Z) chunks.
Proof.
  apply (C9_chunks_within_size Scenario.small); vm_compute; reflexivity.
Defined.

(** ** Nearest first, up to the number of stored vectors *)

#[local] Instance closer_total : Total Faiss.closer.
Proof. intros p1 p2. unfold Faiss.closer. lia. Qed.




Section NearestFirst.
Variable settings : Settings.
Variable encode : string -> Faiss.vec.


End NearestFirst.

(** * Further properties of the retriever *)

#[local] Instance closer_trans : Transitive Faiss.closer.
Proof. intros p1 p2 p3. unfold Faiss.closer. lia. Qed.




Section RetrieveFurther.
Variable settings : Settings.
Variable encode : string -> Faiss.vec.


Lemma retrieve_frame (query : string) (k : option Z) (w : World) :
  let w' := (retrieve settings encode query k w).2 in
  self w' = self w /\ files w' = files w /\ dirs w' = dirs w /\
  exists msgs, console w' = console w ++ msgs.
Proof.
  unfold retrieve, mbind, Py_bind, get_index. cbn [fst snd].
  destruct (index (self w)) as [ix|].
  - unfold lift at 1.
    destruct (Faiss.search ix (encode query) (k_or_default settings k)) as [labels|e].
    + unfold get_documents, lift.
      destruct (collect (documents (self w)) labels []) as [results|e]; cbn.
      * repeat split. by eexists [_].
      * repeat split. exists []. by rewrite app_nil_r.
    + cbn. repeat split. exists []. by rewrite app_nil_r.
  - cbn. repeat split. by eexists [_].
Qed.

(** [retrieve] reads the retriever and the disk but never changes them,
    whether it returns or raises: only the console grows. *)
Theorem retrieve_changes_nothing (query : string) (k : option Z) (w : World) :
  let w' := (retrieve settings encode query k w).2 in
  self w' = self w /\ files w' = files w /\ dirs w' = dirs w /\
  exists msgs, console w' = console w ++ msgs.
Proof. apply retrieve_frame. Qed.

(** With an index in place, a [k] that is negative, or a missing or zero
    [k] under a non-positive configured default, makes [retrieve] raise an
    assertion error; nothing is printed and nothing changes. *)
Theorem retrieve_rejects_nonpositive_k (query : string) (k : option Z) (w : World)
    (ix : Faiss.IndexFlatL2) :
  index (self w) = Some ix ->
  (k_or_default settings k <= 0)%Z ->
  retrieve settings encode query k w = (Raises AssertionError, w).
Proof.
  intros Hix Hk. unfold retrieve, mbind, Py_bind, get_index. rewrite Hix.
  unfold lift at 1, Faiss.search.
  destruct (negb (length (encode query) =? Faiss.d ix)%nat); [reflexivity|].
  replace (0 <? k_or_default settings k)%Z with false
    by (symmetry; apply Z.ltb_ge; lia).
  reflexivity.
Qed.




End RetrieveFurther.


Lemma retrieve_rejects_nonpositive_k_witness :
  retrieve Scenario.small Demo.enc "a" (Some (-3)%Z) Scenario.built
  = (Raises AssertionError, Scenario.built).
Proof.
  apply (retrieve_rejects_nonpositive_k Scenario.small Demo.enc "a" (Some (-3)%Z)
           Scenario.built (Faiss.mkIndex 1 [[40]; [32]; [1]]%Z)).
  - vm_compute. reflexivity.
  - vm_compute. discriminate.
Defined.



(** * Further properties of persistence *)

Lemma rstrip_idem (s : string) : PyStr.rstrip (PyStr.rstrip s) = PyStr.rstrip s.
Proof.
  induction s as [|c s IH]; [reflexivity|]. cbn [PyStr.rstrip].
  destruct (PyStr.rstrip s) as [|x r] eqn:Hr.
  - destruct (PyStr.is_space c) eqn:Hc; [reflexivity|].
    cbn [PyStr.rstrip]. by rewrite Hc.
  - change (PyStr.rstrip (String c (String x r)))
      with (match PyStr.rstrip (String x r) with
            | EmptyString =>
                if PyStr.is_space c then EmptyString else String c EmptyString
            | r' => String c r'
            end).
    by rewrite IH.
Qed.

Lemma lstrip_idem (s : string) : PyStr.lstrip (PyStr.lstrip s) = PyStr.lstrip s.
Proof.
  induction s as [|c s IH]; [reflexivity|]. simpl.
  destruct (PyStr.is_space c) eqn:Hc; [exact IH|]. simpl. by rewrite Hc.
Qed.

Lemma rstrip_lstrip (s : string) :
  PyStr.rstrip (PyStr.lstrip s) = PyStr.lstrip (PyStr.rstrip s).
Proof.
  induction s as [|c s IH]; [reflexivity|].
  destruct (PyStr.is_space c) eqn:Hc.
  - cbn [PyStr.lstrip PyStr.rstrip]. rewrite Hc.
    destruct (PyStr.rstrip s) as [|x r] eqn:Hr.
    + rewrite IH. reflexivity.
    + cbn [PyStr.lstrip]. rewrite Hc. exact IH.
  - cbn [PyStr.lstrip]. rewrite Hc.
    destruct (rstrip_keeps c s Hc) as [r Hr]. rewrite Hr.
    cbn [PyStr.lstrip]. by rewrite Hc.
Qed.

(** Stripping twice is stripping once. *)
Lemma strip_idem (s : string) : PyStr.strip (PyStr.strip s) = PyStr.strip s.
Proof.
  unfold PyStr.strip.
  rewrite (rstrip_lstrip (PyStr.rstrip s)), rstrip_idem, lstrip_idem. reflexivity.
Qed.

Lemma prints_and_ret {A} (Q : A -> Prop) (a : A) : Q a -> prints_and Q (mret a).
Proof. intros Ha w. exists a, []. by rewrite say_nil. Qed.

Lemma prints_and_bind {A B} (Q1 : A -> Prop) (Q2 : B -> Prop)
    (m : Py A) (f : A -> Py B) :
  prints_and Q1 m -> (forall a, Q1 a -> prints_and Q2 (f a)) ->
  prints_and Q2 (m ≫= f).
Proof.
  intros Hm Hf w. destruct (Hm w) as (a & msgs & Hmw & Ha).
  destruct (Hf a Ha (say msgs w)) as (b & msgs' & Hfw & Hb).
  exists b, (msgs ++ msgs'). rewrite (bind_returns _ _ _ _ _ Hmw), Hfw, say_say.
  by split.
Qed.

Lemma prints_and_only {A} (m : Py A) : only_prints m -> prints_and (fun _ => True) m.
Proof. intros Hm w. destruct (Hm w) as (a & msgs & Hmw). by exists a, msgs. Qed.

Lemma truthy_nonempty (s : string) : PyStr.truthy s = true -> s <> EmptyString.
Proof. by destruct s. Qed.

Lemma load_files_tidy (career : option string) (fs : list string) (docs : list Document) :
  Forall tidy docs -> prints_and (Forall tidy) (load_files career fs docs).
Proof.
  revert docs. induction fs as [|file rest IH]; intros docs Hdocs.
  - by apply prints_and_ret.
  - cbn [load_files]. apply (prints_and_bind (Forall tidy)); [|intros; by apply IH].
    intros w. unfold try_except, mbind, Py_bind, read_text.
    destruct (files w !! file) as [[s| |]|].
    + destruct (PyStr.truthy (PyStr.strip (PyStr.universal_newlines s))) eqn:Ht.
      * eexists _, []. rewrite say_nil. split; [reflexivity|].
        apply Forall_app. split; [exact Hdocs|]. repeat constructor; simpl.
        -- by apply truthy_nonempty.
        -- apply strip_idem.
      * eexists _, []. rewrite say_nil. by split.
    + eexists _, [ErrorReading file]. by split.
    + eexists _, [ErrorReading file]. by split.
    + eexists _, [ErrorReading file]. by split.
Qed.

Section PersistenceFurther.
Variable settings : Settings.

Lemma load_documents_prints_tidy (career : option string) (w : World) :
  exists docs msgs,
    load_documents settings career w = (Returns docs, say msgs w) /\
    Forall tidy docs.
Proof.
  revert w. change (prints_and (Forall tidy) (load_documents settings career)).
  unfold load_documents.
  apply (prints_and_bind (fun _ => True));
    [apply prints_and_only, only_prints_exists|]. intros there _.
  destruct there; cbn [negb].
  - apply (prints_and_bind (fun _ => True)).
    + apply prints_and_only.
      destruct career as [c|]; [|apply only_prints_glob].
      destruct (PyStr.truthy c); [|apply only_prints_glob].
      apply only_prints_bind; [apply only_prints_exists|].
      intros; apply only_prints_ret.
    + intros fs _. apply (prints_and_bind (Forall tidy));
        [apply load_files_tidy; constructor|].
      intros docs Hdocs. apply (prints_and_bind (fun _ => True));
        [apply prints_and_only, only_prints_print|].
      intros _ _. by apply prints_and_ret.
  - apply (prints_and_bind (fun _ => True));
      [apply prints_and_only, only_prints_print|].
    intros _ _. apply prints_and_ret. constructor.
Qed.

(** Whenever [load_documents] returns, it has touched neither the retriever
    nor the disk, it has only printed; and every document it returned has a
    text that is not blank and carries no whitespace at either end. *)
Theorem load_documents_tidy (career : option string) (w w' : World)
    (docs : list Document) :
  load_documents settings career w = (Returns docs, w') ->
  (exists msgs, w' = say msgs w) /\ Forall tidy docs.
Proof.
  intros Hrun.
  destruct (load_documents_prints_tidy career w) as (docs0 & msgs & Hload & Htidy).
  rewrite Hload in Hrun. injection Hrun as <- <-. split; [by exists msgs|exact Htidy].
Qed.

(** Whenever [save_index] returns, it has left the retriever as it was and
    has written at most the index file and the manifest of its career:
    every other path on disk keeps its content; and a retriever without
    index has written nothing at all. *)
Theorem save_index_writes_only_its_files (career : string) (w w' : World) :
  save_index settings career w = (Returns tt, w') ->
  self w' = self w /\
  (forall p, p <> index_file settings career -> p <> docs_file settings career ->
     files w' !! p = files w !! p) /\
  (index (self w) = None -> files w' = files w /\ dirs w' = dirs w).
Proof.
  intros Hrun. destruct (index (self w)) as [ix|] eqn:Hix.
  - rewrite (save_index_some settings career w ix Hix) in Hrun.
    injection Hrun as <-. split; [reflexivity|]. split; [|discriminate].
    intros p Hi Hd. simpl.
    rewrite lookup_insert_ne by done. by rewrite lookup_insert_ne.
  - unfold save_index, mbind, Py_bind, get_index in Hrun. rewrite Hix in Hrun.
    injection Hrun as <-. split; [reflexivity|]. split; [reflexivity|].
    intros _. split; reflexivity.
Qed.

Lemma parse_manifest_tidy (content : string) :
  Forall (fun doc => tidy doc /\ metadata doc = []) (parse_manifest content).
Proof.
  unfold parse_manifest. apply Forall_fmap, Forall_forall. intros t Ht.
  apply list_elem_of_In, filter_In in Ht as [_ Ht]. simpl.
  split; [|reflexivity]. split; [by apply truthy_nonempty|apply strip_idem].
Qed.

(** Whenever [load_index] returns [True], every document it installed has a
    text that is not blank and carries no whitespace at either end, and no
    metadata; the disk is as before. *)
Theorem load_index_installs_tidy_documents (career : string) (w w' : World) :
  load_index settings career w = (Returns true, w') ->
  Forall (fun doc => tidy doc /\ metadata doc = []) (documents (self w')) /\
  is_Some (index (self w')) /\
  files w' = files w.
Proof.
  intros Hload.
  destruct (load_index_cases settings career w)
    as [Hl | [[e Hl] | [(ix & s & Hi & Hd) | [ix Hl]]]];
    try (rewrite Hl in Hload; discriminate Hload).
  rewrite (load_index_readable settings career w ix s Hi Hd) in Hload.
  injection Hload as <-. simpl.
  split; [apply parse_manifest_tidy|]. split; [eauto|reflexivity].
Qed.

End PersistenceFurther.

Lemma load_documents_tidy_witness :
  let run := load_documents Scenario.small (Some "python") Scenario.disk in
  (exists msgs, run.2 = say msgs Scenario.disk) /\
  Forall tidy
    [mkDocument "Python is great for data science and has role in machine learning."
       [("source", "python_data.txt"); ("career", "python")]].
Proof.
  intros run.
  apply (load_documents_tidy Scenario.small (Some "python") Scenario.disk).
  vm_compute. reflexivity.
Defined.

Lemma save_index_writes_only_its_files_witness :
  self Tainted.saved = self Tainted.built /\
  (forall p, p <> index_file default_settings "python" ->
             p <> docs_file default_settings "python" ->
     files Tainted.saved !! p = files Tainted.built !! p) /\
  (index (self Tainted.built) = None ->
   files Tainted.saved = files Tainted.built /\ dirs Tainted.saved = dirs Tainted.built).
Proof.
  apply (save_index_writes_only_its_files default_settings "python").
  vm_compute. reflexivity.
Defined.

Lemma load_index_installs_tidy_documents_witness :
  Forall (fun doc => tidy doc /\ metadata doc = []) (documents (self Tainted.reloaded)) /\
  is_Some (index (self Tainted.reloaded)) /\
  files Tainted.reloaded = files Tainted.saved.
Proof.
  apply (load_index_installs_tidy_documents default_settings "python"
           Tainted.saved Tainted.reloaded).
  vm_compute. reflexivity.
Defined.

(** * Topic keys *)

Lemma base_name_cons (c : ascii) (s : string) :
  base_name (String c s) = String (key_char c) (base_name s).
Proof. reflexivity. Qed.

Lemma key_char_facts (c : ascii) :
  key_char (key_char c) = key_char c /\
  key_char (PyStr.lower_char c) = key_char c /\
  key_char (if Ascii.eqb c " "%char then "_"%char else c) = key_char c.
Proof. destruct c as [[] [] [] [] [] [] [] []]; vm_compute; done. Qed.

(** Normalising a topic key is idempotent, and neither lower-casing the
    career name first nor replacing its spaces by underscores first changes
    the key: such names share their index file, manifest and data file. *)
Theorem base_name_normalises (career : string) :
  base_name (base_name career) = base_name career /\
  base_name (PyStr.lower career) = base_name career /\
  base_name (PyStr.replace_char " "%char "_"%char career) = base_name career.
Proof.
  induction career as [|c career (IH1 & IH2 & IH3)]; [done|].
  destruct (key_char_facts c) as (H1 & H2 & H3).
  cbn [PyStr.lower PyStr.replace_char]. rewrite !base_name_cons.
  rewrite IH1, IH2, IH3, H1, H2, H3. done.
Qed.

(** * Building again *)

Lemma same_disk_say (m1 m2 : list Msg) (w1 w2 : World) :
  same_disk w1 w2 -> same_disk (say m1 w1) (say m2 w2).
Proof. intros [? ?]. by split. Qed.

Lemma reads_disk_only_bind {A B} (m : Py A) (f : A -> Py B) :
  only_prints m -> reads_disk_only m -> (forall a, reads_disk_only (f a)) ->
  reads_disk_only (m ≫= f).
Proof.
  intros Hp Hm Hf w1 w2 Hsame.
  destruct (Hp w1) as (a1 & msgs1 & H1). destruct (Hp w2) as (a2 & msgs2 & H2).
  pose proof (Hm w1 w2 Hsame) as Ha. rewrite H1, H2 in Ha. simpl in Ha.
  injection Ha as ->.
  rewrite (bind_returns _ _ _ _ _ H1), (bind_returns _ _ _ _ _ H2).
  by apply Hf, same_disk_say.
Qed.

Lemma reads_disk_only_ret {A} (a : A) : reads_disk_only (mret a).
Proof. by intros w1 w2 _. Qed.

Lemma reads_disk_only_print (m : Msg) : reads_disk_only (print m).
Proof. by intros w1 w2 _. Qed.

Lemma reads_disk_only_exists (p : string) : reads_disk_only (exists_ p).
Proof. intros w1 w2 [Hf Hd]. unfold exists_. simpl. by rewrite Hf, Hd. Qed.

Lemma reads_disk_only_glob (dir : string) : reads_disk_only (glob_txt dir).
Proof. intros w1 w2 [Hf Hd]. unfold glob_txt. simpl. by rewrite Hf. Qed.

Lemma reads_disk_only_load_files (career : option string) (fs : list string)
    (docs : list Document) : reads_disk_only (load_files career fs docs).
Proof.
  revert docs. induction fs as [|file rest IH]; intros docs.
  - apply reads_disk_only_ret.
  - cbn [load_files]. apply reads_disk_only_bind; [| |intros; apply IH].
    + intros w. unfold try_except, mbind, Py_bind, read_text.
      destruct (files w !! file) as [[s| |]|].
      * destruct (PyStr.truthy (PyStr.strip (PyStr.universal_newlines s)));
          eexists _, []; by rewrite say_nil.
      * eexists _, [ErrorReading file]. reflexivity.
      * eexists _, [ErrorReading file]. reflexivity.
      * eexists _, [ErrorReading file]. reflexivity.
    + intros w1 w2 [Hf Hd]. unfold try_except, mbind, Py_bind, read_text.
      rewrite Hf. destruct (files w2 !! file) as [[s| |]|]; try reflexivity.
      by destruct (PyStr.truthy (PyStr.strip (PyStr.universal_newlines s))).
Qed.

Lemma reads_disk_only_load_documents (settings : Settings) (career : option string) :
  reads_disk_only (load_documents settings career).
Proof.
  unfold load_documents.
  apply reads_disk_only_bind;
    [apply only_prints_exists|apply reads_disk_only_exists|].
  intros there. destruct there; cbn [negb].
  - apply reads_disk_only_bind.
    + destruct career as [c|]; [|apply only_prints_glob].
      destruct (PyStr.truthy c); [|apply only_prints_glob].
      apply only_prints_bind; [apply only_prints_exists|].
      intros; apply only_prints_ret.
    + destruct career as [c|]; [|apply reads_disk_only_glob].
      destruct (PyStr.truthy c); [|apply reads_disk_only_glob].
      apply reads_disk_only_bind;
        [apply only_prints_exists|apply reads_disk_only_exists|].
      intros; apply reads_disk_only_ret.
    + intros fs. apply reads_disk_only_bind;
        [apply only_prints_load_files|apply reads_disk_only_load_files|].
      intros docs. apply reads_disk_only_bind;
        [apply only_prints_print|apply reads_disk_only_print|].
      intros; apply reads_disk_only_ret.
  - apply reads_disk_only_bind;
      [apply only_prints_print|apply reads_disk_only_print|].
    intros; apply reads_disk_only_ret.
Qed.

Section BuildAgain.
Variable settings : Settings.
Variable encode : string -> Faiss.vec.
Variable dimension : nat.

(** What a build that finds documents does, step by step *)
Lemma build_index_steps (career : option string) (v : World)
    (docs : list Document) (msgs : list Msg) :
  load_documents settings career v = (Returns docs, say msgs v) -> docs <> [] ->
  build_index settings encode dimension career v
  = if (CHUNK_SIZE settings <? CHUNK_OVERLAP settings)%Z
    then (Raises ValueError, say msgs v)
    else
      match create_documents settings docs with
      | Raises e => (Raises e, say msgs v)
      | Returns chunks =>
          match Faiss.add (map encode (map page_content chunks)) (Faiss.new dimension) with
          | Raises e =>
              (Raises e,
               mkWorld (mkRetriever (Some (Faiss.new dimension)) chunks)
                 (files v) (dirs v)
                 (console v ++ msgs ++ [SplitInto (length chunks); GeneratingEmbeddings]))
          | Returns ix =>
              (Returns tt,
               mkWorld (mkRetriever (Some ix) chunks) (files v) (dirs v)
                 (console v ++ msgs
                  ++ [SplitInto (length chunks); GeneratingEmbeddings;
                      IndexBuilt (Faiss.ntotal ix)]))
          end
      end.
Proof.
  intros Hload Hne. unfold build_index.
  rewrite (bind_returns _ _ _ _ _ Hload).
  destruct docs as [|doc docs]; [done|]. cbn [nonempty negb].
  unfold mbind at 1, Py_bind at 1, split_documents.
  destruct (CHUNK_SIZE settings <? CHUNK_OVERLAP settings)%Z; [reflexivity|].
  unfold mbind at 1, Py_bind at 1, lift at 1.
  destruct (create_documents settings (doc :: docs)) as [chunks|e]; [|reflexivity].
  unfold create_embeddings, print, lift, set_documents, set_index.
  unfold mbind, Py_bind, mret, Py_ret.
  cbn [self files dirs console documents index say].
  destruct (Faiss.add (map encode (map page_content chunks)) (Faiss.new dimension))
    as [ix|e]; by rewrite <- !app_assoc.
Qed.

(** Building replaces, it does not accumulate: after a build that found
    documents and returned, building again on the unchanged disk returns
    again and leaves the retriever with the same index and the same chunks;
    the disk is not touched. *)
Theorem build_index_again (career : option string) (w w1 : World)
    (docs : list Document) :
  (load_documents settings career w).1 = Returns docs -> docs <> [] ->
  build_index settings encode dimension career w = (Returns tt, w1) ->
  exists w2,
    build_index settings encode dimension career w1 = (Returns tt, w2) /\
    self w2 = self w1 /\ files w2 = files w1 /\ dirs w2 = dirs w1.
Proof.
  intros Hdocs Hne Hbuild.
  destruct (only_prints_load_documents settings career w) as (docs0 & msgs & Hload).
  rewrite Hload in Hdocs. simpl in Hdocs. injection Hdocs as ->.
  rewrite (build_index_steps career w docs msgs Hload Hne) in Hbuild.
  destruct (CHUNK_SIZE settings <? CHUNK_OVERLAP settings)%Z eqn:Hsize;
    [discriminate Hbuild|].
  destruct (create_documents settings docs) as [chunks|e] eqn:Hchunks;
    [|discriminate Hbuild].
  destruct (Faiss.add (map encode (map page_content chunks)) (Faiss.new dimension))
    as [ix|e] eqn:Hadd; [|discriminate Hbuild].
  injection Hbuild as <-.
  set (w1 := mkWorld _ _ _ _).
  destruct (only_prints_load_documents settings career w1) as (docs1 & msgs1 & Hload1).
  assert (docs1 = docs) as ->.
  { pose proof (reads_disk_only_load_documents settings career w1 w) as Hsame.
    rewrite Hload1, Hload in Hsame. simpl in Hsame.
    assert (Heq : Returns docs1 = Returns docs) by (apply Hsame; by split).
    by injection Heq. }
  rewrite (build_index_steps career w1 docs msgs1 Hload1 Hne), Hsize, Hchunks, Hadd.
  eexists. split; [reflexivity|]. by repeat split.
Qed.

End BuildAgain.

Lemma build_index_again_witness :
  exists w2,
    build_index Scenario.small Demo.enc 1 (Some "python") Scenario.built = (Returns tt, w2) /\
    self w2 = self Scenario.built /\ files w2 = files Scenario.built /\
    dirs w2 = dirs Scenario.built.
Proof.
  apply (build_index_again Scenario.small Demo.enc 1 (Some "python") Scenario.disk
           Scenario.built
           [mkDocument "Python is great for data science and has role in machine learning."
              [("source", "python_data.txt"); ("career", "python")]]).
  - vm_compute. reflexivity.
  - discriminate.
  - vm_compute. reflexivity.
Defined.

(** * The roadmap agent *)

Lemma lower_char_idem (c : ascii) :
  PyStr.lower_char (PyStr.lower_char c) = PyStr.lower_char c.
Proof. destruct c as [[] [] [] [] [] [] [] []]; vm_compute; reflexivity. Qed.

Lemma lower_idem (s : string) : PyStr.lower (PyStr.lower s) = PyStr.lower s.
Proof.
  induction s as [|c s IH]; [reflexivity|]. simpl. by rewrite lower_char_idem, IH.
Qed.

(** The detected career is always one of the fourteen known names, whatever
    the query; so it is never empty, and its topic key contains no path
    separator. *)
Theorem extract_career_name_is_known (query : string) :
  _extract_career_name query ∈ map fst career_keywords /\
  _extract_career_name query <> EmptyString /\
  PyStr.contains "/" (base_name (_extract_career_name query)) = false.
Proof.
  assert (Hknown : _extract_career_name query ∈ map fst career_keywords).
  { unfold _extract_career_name.
    destruct (List.find _ career_keywords) as [entry|] eqn:Hfind.
    - apply find_some in Hfind as [Hin _].
      apply list_elem_of_In in Hin. by apply (list_elem_of_fmap_2 fst).
    - vm_compute. left. }
  split; [exact Hknown|].
  assert (Hall : Forall (fun name => name <> EmptyString /\
                           PyStr.contains "/" (base_name name) = false)
                   (map fst career_keywords)).
  { vm_compute. repeat (constructor; [split; [discriminate|reflexivity]|]).
    constructor. }
  rewrite Forall_forall in Hall. exact (Hall _ Hknown).
Qed.

(** The detection ignores letter case: a query and its lower-cased form give
    the same career. *)
Theorem extract_career_name_ignores_case (query : string) :
  _extract_career_name (PyStr.lower query) = _extract_career_name query.
Proof. unfold _extract_career_name. by rewrite lower_idem. Qed.

(** The first entry of the keyword table that the lower-cased query
    mentions decides the career; when the query mentions none, the career
    is "full stack". *)
Theorem extract_career_name_first_match (query : string) :
  (forall before entry after,
     career_keywords = before ++ entry :: after ->
     Forall (fun e => mentions (PyStr.lower query) e.2 = false) before ->
     mentions (PyStr.lower query) entry.2 = true ->
     _extract_career_name query = entry.1)
  /\
  (Forall (fun e => mentions (PyStr.lower query) e.2 = false) career_keywords ->
   _extract_career_name query = "full stack").
Proof.
  assert (Hfind : forall (f : string * list string -> bool) before entry after,
             Forall (fun e => f e = false) before -> f entry = true ->
             List.find f (before ++ entry :: after) = Some entry).
  { intros f before entry after Hbefore Hentry.
    induction Hbefore as [|e before He _ IH]; simpl.
    - by rewrite Hentry.
    - by rewrite He. }
  split.
  - intros before entry after Htable Hbefore Hentry.
    unfold _extract_career_name. rewrite Htable.
    by rewrite (Hfind _ before entry after Hbefore Hentry).
  - intros Hnone. unfold _extract_career_name.
    destruct (List.find _ career_keywords) as [entry|] eqn:Hf; [|reflexivity].
    apply find_some in Hf as [Hin Hm]. apply list_elem_of_In in Hin.
    rewrite Forall_forall in Hnone. specialize (Hnone _ Hin). simpl in Hm.
    congruence.
Qed.

Lemma extract_career_name_first_match_witness :
  _extract_career_name "I want to be a Java Developer in security" = "java" /\
  _extract_career_name "How do I become a doctor?" = "full stack".
Proof.
  split.
  - apply (proj1 (extract_career_name_first_match
                    "I want to be a Java Developer in security")
             (take 9 career_keywords) ("java", ["java developer"])
             (drop 10 career_keywords)).
    + vm_compute. reflexivity.
    + vm_compute. repeat constructor.
    + vm_compute. reflexivity.
  - apply (proj2 (extract_career_name_first_match "How do I become a doctor?")).
    vm_compute. repeat constructor.
Defined.

Lemma contains_refl_app (x a r : string) : PyStr.contains x (a +:+ x +:+ r) = true.
Proof. apply contains_spec. by exists a, r. Qed.

Lemma contains_app_r (x a s : string) :
  PyStr.contains x s = true -> PyStr.contains x (a +:+ s) = true.
Proof.
  rewrite !contains_spec. intros (b & r & ->). exists (a +:+ b), r.
  by rewrite !app_assoc_s.
Qed.

(** Every element of a joined list occurs in the joined text. *)
Lemma join_contains (sep x : string) (l : list string) :
  x ∈ l -> PyStr.contains x (PyStr.join sep l) = true.
Proof.
  induction l as [|y l IH]; intros Hin; [by apply elem_of_nil in Hin|].
  destruct l as [|z l].
  - apply list_elem_of_singleton in Hin as ->. simpl.
    apply contains_spec. exists EmptyString, EmptyString. by rewrite app_nil_r_s.
  - change (PyStr.join sep (y :: z :: l))
      with (y +:+ sep +:+ PyStr.join sep (z :: l)).
    apply elem_of_cons in Hin as [-> | Hin].
    + apply (contains_refl_app y EmptyString).
    + rewrite <- app_assoc_s. by apply contains_app_r, IH.
Qed.

Lemma context_parts_length (i : nat) (docs : list Document) :
  length (context_parts i docs) = 3 * length docs.
Proof. revert i. induction docs as [|doc docs IH]; intros i; simpl; [|rewrite IH]; lia. Qed.

Lemma context_parts_text (i : nat) (docs : list Document) (doc : Document) :
  doc ∈ docs -> page_content doc ∈ context_parts i docs.
Proof.
  revert i. induction docs as [|d docs IH]; intros i Hin;
    [by apply elem_of_nil in Hin|].
  simpl. apply elem_of_cons in Hin as [-> | Hin].
  - right. left.
  - do 3 right. by apply IH.
Qed.

(** The context handed to the language model contains the text of every
    retrieved document; it is built of three lines per document, and it is
    empty when there is no document. *)
Theorem format_context_keeps_every_text (docs : list Document) :
  (forall doc, doc ∈ docs ->
     PyStr.contains (page_content doc) (_format_context docs) = true) /\
  length (context_parts 1 docs) = 3 * length docs /\
  (docs = [] -> _format_context docs = EmptyString).
Proof.
  split; [|split].
  - intros doc Hin. unfold _format_context.
    by apply join_contains, context_parts_text.
  - apply context_parts_length.
  - by intros ->.
Qed.

Lemma format_context_keeps_every_text_witness :
  PyStr.contains (page_content Scenario.chunk2)
    (_format_context [Scenario.chunk3; Scenario.chunk2]) = true.
Proof.
  apply (proj1 (format_context_keeps_every_text [Scenario.chunk3; Scenario.chunk2])).
  right. left.
Defined.

Lemma split_char_pieces (c : ascii) (cur s : string) :
  PyStr.contains (String c EmptyString) cur = false ->
  Forall (fun t => PyStr.contains (String c EmptyString) t = false)
    (PyStr.split_go (String c EmptyString) 0 cur s).
Proof.
  revert cur. induction s as [|x s IH]; intros cur Hcur.
  - simpl. by repeat constructor.
  - cbn [PyStr.split_go PyStr.startswith String.length Nat.sub].
    destruct (Ascii.eqb c x) eqn:Hcx; cbn [andb].
    + destruct s; (constructor; [exact Hcur|by apply IH]).
    + destruct s; apply IH; rewrite contains_char_app, Hcur, contains_char_cons, Hcx;
        reflexivity.
Qed.

Lemma lstrip_keeps_absence (c : ascii) (s : string) :
  PyStr.contains (String c EmptyString) s = false ->
  PyStr.contains (String c EmptyString) (PyStr.lstrip s) = false.
Proof.
  induction s as [|x s IH]; [done|]. intros Hs. cbn [PyStr.lstrip].
  destruct (PyStr.is_space x); [|exact Hs].
  rewrite contains_char_cons in Hs. apply orb_false_iff in Hs as [_ Hs]. by apply IH.
Qed.

Lemma rstrip_keeps_absence (c : ascii) (s : string) :
  PyStr.contains (String c EmptyString) s = false ->
  PyStr.contains (String c EmptyString) (PyStr.rstrip s) = false.
Proof.
  induction s as [|x s IH]; [done|]. intros Hs.
  rewrite contains_char_cons in Hs. apply orb_false_iff in Hs as [Hx Hs].
  specialize (IH Hs). cbn [PyStr.rstrip].
  destruct (PyStr.rstrip s) as [|y r].
  - destruct (PyStr.is_space x); [reflexivity|].
    rewrite contains_char_cons, Hx. reflexivity.
  - rewrite contains_char_cons, Hx. exact IH.
Qed.

Section TipsAndRoadmap.
Variable settings : Settings.
Variable encode : string -> Faiss.vec.
Variable dimension : nat.
Variable scrape_all_sources : string -> Scraped.
Variable llm_invoke : string -> outcome string.
Variable format_prompt : string -> string -> outcome string.
Variable search_youtube_videos : string -> list Video.

(** Every tip returned by [get_quick_tips] is a non-empty single line
    without whitespace at either end; when the language model call raises,
    the result is the empty list and one error line is printed. *)
Theorem quick_tips_are_clean_lines (career : string) :
  Forall (fun tip =>
            tip <> EmptyString /\
            PyStr.strip tip = tip /\
            PyStr.contains (String PyStr.LF EmptyString) tip = false)
    (get_quick_tips llm_invoke career).1 /\
  (forall e, llm_invoke (tips_prompt career) = Raises e ->
     get_quick_tips llm_invoke career = ([], [ErrorGettingTips e])).
Proof.
  unfold get_quick_tips. split.
  - destruct (llm_invoke (tips_prompt career)) as [text|e]; [|constructor].
    cbn [fst]. unfold tips_of. apply Forall_fmap, Forall_forall. intros t Ht.
    apply list_elem_of_In, filter_In in Ht as [Hin Ht]. simpl.
    split; [by apply truthy_nonempty|]. split; [apply strip_idem|].
    unfold PyStr.strip. apply lstrip_keeps_absence, rstrip_keeps_absence.
    pose proof (split_char_pieces PyStr.LF EmptyString text eq_refl) as Hall.
    rewrite Forall_forall in Hall. apply Hall. by apply list_elem_of_In.
  - by intros e ->.
Qed.

Lemma get_or_create_persists (career : string) (w w1 : World) (b : bool) :
  _get_or_create_index settings encode dimension scrape_all_sources career w
  = (Returns b, w1) ->
  exists ix manifest_text,
    index (self w1) = Some ix /\
    files w1 !! index_file settings career = Some (IndexFile ix) /\
    files w1 !! docs_file settings career = Some (TextFile manifest_text).
Proof.
  intros Hrun. unfold _get_or_create_index in Hrun.
  destruct (load_index_cases settings career w)
    as [Hl | [[e Hl] | [(ix & s & Hi & Hd) | [ix Hl]]]].
  - rewrite (bind_returns _ _ _ _ _ Hl) in Hrun.
    by apply build_branch in Hrun as [_ ?].
  - rewrite (bind_raises _ _ _ _ _ Hl) in Hrun. discriminate Hrun.
  - rewrite (bind_returns _ _ _ _ _ (load_index_readable settings career w ix s Hi Hd))
      in Hrun.
    injection Hrun as <- <-. exists ix, s. simpl. eauto.
  - rewrite (bind_returns _ _ _ _ _ Hl) in Hrun.
    by apply build_branch in Hrun as [_ ?].
Qed.

(** After [_get_or_create_index] has returned, the index in memory is the
    one stored in the career's index file, and the career's manifest file
    exists as text. *)
Theorem get_or_create_leaves_index_on_disk (career : string) (w w1 : World) (b : bool) :
  _get_or_create_index settings encode dimension scrape_all_sources career w
  = (Returns b, w1) ->
  exists ix manifest_text,
    index (self w1) = Some ix /\
    files w1 !! index_file settings career = Some (IndexFile ix) /\
    files w1 !! docs_file settings career = Some (TextFile manifest_text).
Proof. apply get_or_create_persists. Qed.

(** When [generate_roadmap] reports success: the career is the detected
    one; [_get_or_create_index] returned for it; the documents used are
    exactly those [retrieve] returned for the query with the configured
    [k], there is at least one and [sources_used] is their number; the
    roadmap is the model's answer to the prompt formatted from the context
    of these documents and the query; the videos are the search results
    for the career; and the index of that career is in memory and on disk. *)
Theorem generate_roadmap_success (query : string) (w w' : World)
    (career roadmap : string) (videos : list Video) (sources_used : nat)
    (log : list AgentMsg) :
  generate_roadmap settings encode dimension scrape_all_sources llm_invoke
    format_prompt search_youtube_videos query w
  = (RoadmapSuccess career roadmap videos sources_used, w', log) ->
  career = _extract_career_name query /\
  (exists w1 docs prompt,
     _get_or_create_index settings encode dimension scrape_all_sources career w
     = (Returns true, w1) /\
     retrieve settings encode query (Some (TOP_K_RESULTS settings)) w1
     = (Returns docs, w') /\
     docs <> [] /\
     sources_used = length docs /\
     format_prompt (_format_context docs) query = Returns prompt /\
     llm_invoke prompt = Returns roadmap) /\
  videos = search_youtube_videos (career +:+ " roadmap tutorial") /\
  log = [DetectedCareer career; RetrievingInformation; GeneratingRoadmap] /\
  exists ix,
    index (self w') = Some ix /\
    files w' !! index_file settings career = Some (IndexFile ix).
Proof.
  unfold generate_roadmap.
  destruct (_get_or_create_index settings encode dimension scrape_all_sources
              (_extract_career_name query) w) as [[b|e] w1] eqn:Hready;
    [|discriminate].
  pose proof (retrieve_frame settings encode query
                (Some (TOP_K_RESULTS settings)) w1) as (Hself & Hfiles & _).
  destruct (retrieve settings encode query (Some (TOP_K_RESULTS settings)) w1)
    as [[docs|e] w2] eqn:Hret; [|discriminate].
  cbn [snd] in Hself, Hfiles.
  destruct docs as [|doc docs]; [discriminate|]. cbn [nonempty negb].
  destruct (format_prompt (_format_context (doc :: docs)) query) as [prompt|e] eqn:Hfmt;
    [|discriminate].
  destruct (llm_invoke prompt) as [answer|e] eqn:Hllm; [|discriminate].
  intros Heq. injection Heq as <- <- <- <- <- <-.
  destruct (get_or_create_state settings encode dimension scrape_all_sources
              _ _ _ _ Hready) as (-> & ix & s & Hix & Hfile & _).
  split; [reflexivity|]. split.
  - exists w1, (doc :: docs), prompt. by repeat split.
  - split; [reflexivity|]. split; [reflexivity|].
    exists ix. rewrite Hself, Hfiles. by split.
Qed.

End TipsAndRoadmap.

Lemma quick_tips_are_clean_lines_witness :
  (get_quick_tips DemoAgent.llm "python").1
  = ["1. Learn the basics"; "2. Build projects"; "3. Keep practising"] /\
  get_quick_tips DemoAgent.failing_llm "python" = ([], [ErrorGettingTips RuntimeError]).
Proof.
  split; [vm_compute; reflexivity|].
  apply (proj2 (quick_tips_are_clean_lines DemoAgent.failing_llm "python")).
  reflexivity.
Defined.

Lemma get_or_create_leaves_index_on_disk_witness :
  let first := _get_or_create_index default_settings Demo.enc 1 Demo.scr "python" Demo.fresh in
  exists ix manifest_text,
    index (self first.2) = Some ix /\
    files first.2 !! index_file default_settings "python" = Some (IndexFile ix) /\
    files first.2 !! docs_file default_settings "python" = Some (TextFile manifest_text).
Proof.
  intros first.
  apply (get_or_create_leaves_index_on_disk default_settings Demo.enc 1 Demo.scr
           "python" Demo.fresh first.2 true).
  vm_compute. reflexivity.
Defined.

Lemma generate_roadmap_success_witness :
  let run := generate_roadmap default_settings Demo.enc 1 Demo.scr DemoAgent.llm
               DemoAgent.format DemoAgent.youtube
               "I want to become a data scientist" Demo.fresh in
  exists roadmap sources_used,
    run.1.1 = RoadmapSuccess "data science" roadmap [] sources_used /\
    (exists w1 docs prompt,
       _get_or_create_index default_settings Demo.enc 1 Demo.scr "data science" Demo.fresh
       = (Returns true, w1) /\
       retrieve default_settings Demo.enc "I want to become a data scientist"
         (Some (TOP_K_RESULTS default_settings)) w1 = (Returns docs, run.1.2) /\
       docs <> [] /\
       sources_used = length docs /\
       DemoAgent.format (_format_context docs) "I want to become a data scientist"
       = Returns prompt /\
       DemoAgent.llm prompt = Returns roadmap) /\
    exists ix,
      index (self run.1.2) = Some ix /\
      files run.1.2 !! index_file default_settings "data science" = Some (IndexFile ix).
Proof.
  intros run.
  assert (Hrun : exists roadmap w' log,
            run = (RoadmapSuccess "data science" roadmap [] 5, w', log)).
  { eexists _, _, _. vm_compute. reflexivity. }
  destruct Hrun as (roadmap & w' & log & Hrun).
  exists roadmap, 5. rewrite Hrun. cbn [fst snd]. split; [reflexivity|].
  destruct (generate_roadmap_success default_settings Demo.enc 1 Demo.scr DemoAgent.llm
              DemoAgent.format DemoAgent.youtube
              "I want to become a data scientist" Demo.fresh w'
              "data science" roadmap [] 5 log Hrun)
    as (_ & Hsources & _ & _ & Hdisk).
  split; [exact Hsources|exact Hdisk].
Defined.

(** * The scraper's file *)

Section ScraperFile.
Variable settings : Settings.

(** When [save_scraped_data] has returned for a named career, it has
    returned the path of the career's data file, and [load_documents] for
    that career reads back exactly one document: its text is the written
    text as text mode delivers it (a carriage return, alone or before a
    line feed, as one line feed) without the surrounding whitespace, and it
    is labelled with the file's name and the career. *)
Theorem scraped_text_is_loaded (career : string) (data : Scraped) (v saved : World)
    (path : string) :
  career <> EmptyString ->
  save_scraped_data settings career data v = (Returns path, saved) ->
  path = data_file settings career /\
  exists msgs,
    load_documents settings (Some career) saved
    = (Returns
         [mkDocument
            (PyStr.strip (PyStr.universal_newlines (combined_text data)))
            [("source", basename path); ("career", career)]],
       say msgs saved).
Proof.
  intros Hcareer Hsave.
  assert (Htruthy : PyStr.truthy career = true) by (by destruct career).
  assert (Hsaved : saved
                   = mkWorld (self v)
                       (<[data_file settings career := TextFile (combined_text data)]>
                          (files v))
                       ({[RAW_DATA_PATH settings]} ∪ dirs v)
                       (console v ++ [DataSaved (data_file settings career)]) /\
                   path = data_file settings career).
  { rewrite save_scraped_data_run in Hsave. by injection Hsave as <- <-. }
  destruct Hsaved as [Hsaved ->]. split; [reflexivity|].
  assert (Hfile : files saved !! data_file settings career
                  = Some (TextFile (combined_text data))).
  { rewrite Hsaved. simpl. apply lookup_insert_eq. }
  assert (Hthere : exists_ (RAW_DATA_PATH settings) saved = (Returns true, saved)).
  { unfold exists_.
    rewrite (bool_decide_eq_true_2 (RAW_DATA_PATH settings ∈ dirs saved))
      by (rewrite Hsaved; simpl; set_solver).
    by rewrite orb_true_r. }
  eexists. unfold load_documents. rewrite (bind_returns _ _ _ _ _ Hthere).
  cbv beta iota zeta. cbn [negb]. fold (data_file settings career).
  rewrite Htruthy.
  erewrite bind_returns;
    [|erewrite bind_returns; [reflexivity|apply (exists_present _ _ _ Hfile)]].
  cbn [load_files].
  unfold mbind, Py_bind, try_except, read_text. rewrite Hfile.
  rewrite (combined_text_not_blank data), Htruthy.
  unfold print, mret, Py_ret, say. cbn. reflexivity.
Qed.

(** The saved text contains the career name, the three scraped texts, and
    the title, channel and address of every video.  The descriptions of the
    videos are not written: blanking them all gives the same text. *)
Theorem combined_text_keeps_sources (data : Scraped) :
  PyStr.contains (career_of data) (combined_text data) = true /\
  PyStr.contains (roadmap_sh data) (combined_text data) = true /\
  PyStr.contains (geeksforgeeks data) (combined_text data) = true /\
  PyStr.contains (freecodecamp data) (combined_text data) = true /\
  (forall v, v ∈ youtube_videos data ->
     PyStr.contains (title v) (combined_text data) = true /\
     PyStr.contains (channel v) (combined_text data) = true /\
     PyStr.contains (url v) (combined_text data) = true) /\
  combined_text (forget_descriptions data) = combined_text data.
Proof.
  assert (Hforget : forall vs,
            video_lines (map forget_description vs) = video_lines vs).
  { induction vs as [|x vs IH]; [reflexivity|].
    cbn [map video_lines forget_description title channel url]. by rewrite IH. }
  assert (Hvideos : forall v vs, v ∈ vs ->
            PyStr.contains (title v) (video_lines vs) = true /\
            PyStr.contains (channel v) (video_lines vs) = true /\
            PyStr.contains (url v) (video_lines vs) = true).
  { intros v vs. induction vs as [|x vs IH]; intros Hin;
      [by apply elem_of_nil in Hin|].
    cbn [video_lines]. apply elem_of_cons in Hin as [<- | Hin].
    - repeat split.
      + apply contains_refl_app.
      + do 2 apply contains_app_r. apply contains_refl_app.
      + do 4 apply contains_app_r. apply contains_refl_app.
    - destruct (IH Hin) as (H1 & H2 & H3).
      repeat split; do 7 apply contains_app_r; assumption. }
  unfold combined_text. split; [|split; [|split; [|split; [|split]]]].
  - apply contains_refl_app.
  - do 2 apply contains_app_r. apply contains_refl_app.
  - do 4 apply contains_app_r. apply contains_refl_app.
  - do 6 apply contains_app_r. apply contains_refl_app.
  - intros v Hv. destruct (Hvideos v _ Hv) as (H1 & H2 & H3).
    repeat split; do 9 apply contains_app_r; assumption.
  - unfold forget_descriptions.
    cbn [career_of roadmap_sh geeksforgeeks freecodecamp youtube_videos].
    by rewrite Hforget.
Qed.

End ScraperFile.

Lemma scraped_text_is_loaded_witness :
  let run := save_scraped_data default_settings "python" (Demo.scr "python")
               Demo.fresh in
  "database/raw_scraped_data/python_data.txt" = data_file default_settings "python" /\
  exists msgs,
    load_documents default_settings (Some "python") run.2
    = (Returns
         [mkDocument
            (PyStr.strip (PyStr.universal_newlines (combined_text (Demo.scr "python"))))
            [("source", basename "database/raw_scraped_data/python_data.txt");
             ("career", "python")]],
       say msgs run.2).
Proof.
  intros run.
  apply (scraped_text_is_loaded default_settings "python" (Demo.scr "python") Demo.fresh
           run.2 "database/raw_scraped_data/python_data.txt").
  - discriminate.
  - vm_compute. reflexivity.
Defined.

Lemma combined_text_keeps_sources_witness :
  let video := mkVideo "Python in 100 seconds" "https://www.youtube.com/watch?v=x7X9w_GIm1s"
                 "Fireship" "A short introduction" in
  let data := mkScraped "python" "Learn the basics" "Practice daily" "Build projects"
                [video] in
  PyStr.contains (title video) (combined_text data) = true /\
  PyStr.contains (channel video) (combined_text data) = true /\
  PyStr.contains (url video) (combined_text data) = true.
Proof.
  intros video data.
  apply (proj1 (proj2 (proj2 (proj2 (proj2 (combined_text_keeps_sources data)))))).
  left.
Defined.

(** * Chunks are tidy *)

Lemma join_docs_tidy (pieces : list string) (separator t : string) :
  Langchain.join_docs pieces separator = Some t -> tidy_text t.
Proof.
  unfold Langchain.join_docs.
  destruct (PyStr.truthy (PyStr.strip (PyStr.join separator pieces))) eqn:Ht;
    [|discriminate].
  intros Heq. injection Heq as <-. split; [by apply truthy_nonempty|apply strip_idem].
Qed.

Lemma option_list_join_docs_tidy (pieces : list string) (separator : string) :
  Forall tidy_text (option_list (Langchain.join_docs pieces separator)).
Proof.
  destruct (Langchain.join_docs pieces separator) as [t|] eqn:Hj; simpl;
    [|constructor].
  apply Forall_cons. split; [by eapply join_docs_tidy|constructor].
Qed.

(** Whatever [_merge_splits] returns is tidy. *)
Lemma merge_loop_tidy (chunk_size chunk_overlap : Z) (separator : string)
    (splits docs current_doc : list string) (total : Z) (result : list string) :
  Forall tidy_text docs ->
  Langchain.merge_loop chunk_size chunk_overlap separator splits docs current_doc total
  = Returns result ->
  Forall tidy_text result.
Proof.
  revert docs current_doc total.
  induction splits as [|d rest IH]; intros docs current_doc total Hdocs.
  - simpl. intros Heq. injection Heq as <-.
    apply Forall_app. split; [exact Hdocs|apply option_list_join_docs_tidy].
  - cbn [Langchain.merge_loop].
    destruct ((chunk_size <? total + len d
                 + (if nonempty current_doc then len separator else 0))%Z
              && nonempty current_doc).
    + destruct (Langchain.pop_front chunk_size chunk_overlap (len separator) (len d)
                  total current_doc) as [[total' cur']|e];
        cbn [mbind outcome_bind mret outcome_ret]; [|discriminate].
      apply IH. apply Forall_app.
      split; [exact Hdocs|apply option_list_join_docs_tidy].
    + cbn [mbind outcome_bind mret outcome_ret]. by apply IH.
Qed.

Lemma merge_splits_tidy (chunk_size chunk_overlap : Z) (splits : list string)
    (separator : string) (result : list string) :
  Langchain.merge_splits chunk_size chunk_overlap splits separator = Returns result ->
  Forall tidy_text result.
Proof. apply merge_loop_tidy. constructor. Qed.

(** The loop of [_split_text] returns tidy chunks when the recursive call
    does and, without a recursive call, when every piece is shorter than
    the chunk size (so that none is appended as it stands). *)
Lemma split_loop_tidy (chunk_size chunk_overlap : Z)
    (deeper : option (string -> outcome (list string)))
    (splits final_chunks good result : list string) :
  match deeper with
  | Some f => forall s chunks, f s = Returns chunks -> Forall tidy_text chunks
  | None => Forall (fun s => (len s < chunk_size)%Z) splits
  end ->
  Forall tidy_text final_chunks ->
  Langchain.split_loop chunk_size chunk_overlap deeper splits final_chunks good
  = Returns result ->
  Forall tidy_text result.
Proof.
  revert final_chunks good.
  induction splits as [|s rest IH]; intros final_chunks good Hdeeper Hfinal.
  - cbn [Langchain.split_loop]. destruct (nonempty good).
    + destruct (Langchain.merge_splits chunk_size chunk_overlap good EmptyString)
        as [merged|e] eqn:Hm; cbn [mbind outcome_bind mret outcome_ret];
        [|discriminate].
      intros Heq. injection Heq as <-. apply Forall_app.
      split; [exact Hfinal|by apply merge_splits_tidy in Hm].
    + intros Heq. by injection Heq as <-.
  - assert (Hrest : match deeper with
                    | Some f => forall s chunks, f s = Returns chunks ->
                                                 Forall tidy_text chunks
                    | None => Forall (fun s => (len s < chunk_size)%Z) rest
                    end).
    { destruct deeper; [exact Hdeeper|]. by apply Forall_cons in Hdeeper as [_ ?]. }
    cbn [Langchain.split_loop]. destruct (len s <? chunk_size)%Z eqn:Hs.
    + by apply IH.
    + assert (Hflush : forall final',
                (if nonempty good then
                   merged_text ← Langchain.merge_splits chunk_size chunk_overlap good
                                   EmptyString;
                   mret (final_chunks ++ merged_text)
                 else mret final_chunks) = Returns final' ->
                Forall tidy_text final').
      { intros final'. destruct (nonempty good).
        - destruct (Langchain.merge_splits chunk_size chunk_overlap good EmptyString)
            as [merged|e] eqn:Hm; cbn [mbind outcome_bind mret outcome_ret];
            [|discriminate].
          intros Heq. injection Heq as <-. apply Forall_app.
          split; [exact Hfinal|by apply merge_splits_tidy in Hm].
        - intros Heq. by injection Heq as <-. }
      destruct (if nonempty good then _ else _) as [final'|e];
        cbn [mbind outcome_bind]; [|discriminate].
      specialize (Hflush final' eq_refl).
      destruct deeper as [f|].
      * destruct (f s) as [other|e] eqn:Hf; cbn [mbind outcome_bind]; [|discriminate].
        apply IH; [exact Hrest|]. apply Forall_app. split; [exact Hflush|].
        by apply (Hdeeper s).
      * apply Forall_cons in Hdeeper as [Hlen _]. apply Z.ltb_ge in Hs. lia.
Qed.

Lemma split_text_tidy (chunk_size chunk_overlap : Z) (separators : list string) :
  (1 < chunk_size)%Z -> EmptyString ∈ separators ->
  forall text chunks,
    Langchain.split_text chunk_size chunk_overlap separators text = Returns chunks ->
    Forall tidy_text chunks.
Proof.
  intros Hsize. induction separators as [|_s rest IH]; intros Hin text chunks.
  - by apply elem_of_nil in Hin.
  - cbn [Langchain.split_text]. destruct _s as [|c _s].
    + cbn [PyStr.truthy negb]. unfold Langchain.split_with.
      apply split_loop_tidy; [|constructor].
      unfold Langchain.split_text_with_regex. cbn [PyStr.truthy].
      apply Forall_filter_keep.
      eapply Forall_impl; [apply chars_single|]. intros s Hs. simpl in Hs. lia.
    + cbn [PyStr.truthy negb].
      apply elem_of_cons in Hin as [Hin | Hin]; [discriminate Hin|].
      assert (Hne : nonempty rest = true).
      { destruct rest; [by apply elem_of_nil in Hin|reflexivity]. }
      rewrite Hne. destruct (PyStr.contains (String c _s) text).
      * unfold Langchain.split_with. apply split_loop_tidy; [|constructor].
        intros s chunks'. by apply IH.
      * by apply IH.
Qed.

Section TidyChunks.
Variable settings : Settings.
Hypothesis size_above_one : (1 < CHUNK_SIZE settings)%Z.
Hypothesis overlap_nonneg : (0 <= CHUNK_OVERLAP settings)%Z.
Hypothesis overlap_below : (CHUNK_OVERLAP settings <= CHUNK_SIZE settings)%Z.

Lemma create_documents_tidy (docs : list Document) :
  exists chunks,
    create_documents settings docs = Returns chunks /\
    Forall tidy chunks /\
    Forall (fun c => exists doc, doc ∈ docs /\ metadata c = metadata doc) chunks.
Proof.
  induction docs as [|doc rest (others & Hothers & Htidy & Hmeta)].
  - exists []. split; [reflexivity|split; constructor].
  - cbn [create_documents].
    destruct (split_text_ok (CHUNK_SIZE settings) (CHUNK_OVERLAP settings)
                overlap_nonneg ltac:(lia)
                ["

"; "
"; "."; " "; EmptyString] ltac:(set_solver) (page_content doc))
      as (texts & Hsplit & _).
    rewrite Hsplit, Hothers. cbn [mbind outcome_bind mret outcome_ret].
    eexists. split; [reflexivity|].
    apply split_text_tidy in Hsplit; [|exact size_above_one|set_solver].
    split; apply Forall_app; split.
    + apply Forall_fmap. eapply Forall_impl; [exact Hsplit|]. by intros t Ht.
    + exact Htidy.
    + apply Forall_fmap, Forall_forall. intros t _. exists doc. split; [left|done].
    + eapply Forall_impl; [exact Hmeta|]. intros c (d & Hd & Hm).
      exists d. split; [by right|exact Hm].
Qed.

(** With a chunk size above one, [split_documents] returns, no chunk is
    blank or carries whitespace at either end, and every chunk has the
    metadata of one of the given documents; no documents give no chunks. *)
Theorem split_documents_gives_tidy_chunks (docs : list Document) (w : World) :
  exists chunks,
    split_documents settings docs w
    = (Returns chunks, say [SplitInto (length chunks)] w) /\
    Forall tidy chunks /\
    Forall (fun c => exists doc, doc ∈ docs /\ metadata c = metadata doc) chunks /\
    (docs = [] -> chunks = []).
Proof.
  destruct (create_documents_tidy docs) as (chunks & Hcreate & Htidy & Hmeta).
  exists chunks.
  split; [|split; [exact Htidy|split; [exact Hmeta|]]].
  - unfold split_documents.
    replace (CHUNK_SIZE settings <? CHUNK_OVERLAP settings)%Z with false
      by (symmetry; apply Z.ltb_ge; lia).
    unfold mbind, Py_bind, lift. rewrite Hcreate. reflexivity.
  - intros ->. simpl in Hcreate. by injection Hcreate as <-.
Qed.

End TidyChunks.

Lemma split_documents_gives_tidy_chunks_witness :
  exists chunks,
    split_documents Scenario.small
      [mkDocument "Python is great for data science and has role in machine learning." []]
      Demo.fresh
    = (Returns chunks, say [SplitInto (length chunks)] Demo.fresh) /\
    Forall tidy chunks /\
    Forall (fun c => exists doc,
              doc ∈ [mkDocument
                       "Python is great for data science and has role in machine learning."
                       []] /\ metadata c = metadata doc) chunks /\
    ([mkDocument "Python is great for data science and has role in machine learning." []]
     = [] -> chunks = []).
Proof.
  apply (split_documents_gives_tidy_chunks Scenario.small); vm_compute;
    first [reflexivity | discriminate].
Defined.

(** * A career without usable data *)

Section NoUsableData.
Variable settings : Settings.
Variable encode : string -> Faiss.vec.
Variable dimension : nat.

(** For a named career whose data file is missing or holds only
    whitespace: when [load_documents] returns, it returns the empty list,
    and [build_index] then ends with the no-documents warning, the
    retriever and the disk being as they were. *)
Theorem build_index_without_usable_data (career : string) (w w' : World)
    (docs : list Document) :
  career <> EmptyString ->
  match files w !! data_file settings career with
  | Some (TextFile s) => PyStr.strip (PyStr.universal_newlines s) = EmptyString
  | Some _ => False
  | None => True
  end ->
  load_documents settings (Some career) w = (Returns docs, w') ->
  docs = [] /\
  exists msgs,
    w' = say msgs w /\
    build_index settings encode dimension (Some career) w
    = (Returns tt, say (msgs ++ [NoDocumentsFound]) w).
Proof.
  intros Hcareer Hfile Hrun.
  assert (Htruthy : PyStr.truthy career = true) by (by destruct career).
  assert (Hload : exists msgs,
             load_documents settings (Some career) w = (Returns [], say msgs w)).
  { unfold load_documents. rewrite Htruthy. fold (data_file settings career).
    rewrite (bind_returns (exists_ (RAW_DATA_PATH settings)) _ w w _ eq_refl).
    destruct (bool_decide (is_Some (files w !! RAW_DATA_PATH settings))
              || bool_decide (RAW_DATA_PATH settings ∈ dirs w)); cbn [negb].
    - rewrite (bind_returns _ _ w w _
                 (bind_returns (exists_ (data_file settings career)) _ w w _ eq_refl)).
      destruct (bool_decide (is_Some (files w !! data_file settings career))
                || bool_decide (data_file settings career ∈ dirs w)).
      + cbn [load_files].
        assert (Hread : exists msgs,
                   try_except
                     (content ← read_text (data_file settings career);
                      let content := PyStr.strip content in
                      if PyStr.truthy content then
                        mret ([] ++
                              [mkDocument content
                                 [("source", basename (data_file settings career));
                                  ("career", if PyStr.truthy career then career
                                             else "general")]])
                      else mret [])
                     (fun _ => _ ← print (ErrorReading (data_file settings career));
                               mret []) w
                   = (Returns [], say msgs w)).
        { unfold try_except, mbind, Py_bind, read_text.
          destruct (files w !! data_file settings career) as [[s|ix|]|].
          - rewrite Hfile. exists []. by rewrite say_nil.
          - contradiction.
          - contradiction.
          - by exists [ErrorReading (data_file settings career)]. }
        destruct Hread as (msgs & Hread).
        rewrite (bind_returns _ _ w _ _ (bind_returns _ _ w _ _ Hread)).
        exists (msgs ++ [LoadedDocuments 0]).
        unfold mret, Py_ret, mbind, Py_bind, print, say. cbn.
        by rewrite app_assoc.
      + exists [LoadedDocuments 0]. reflexivity.
    - exists [DataPathNotFound (RAW_DATA_PATH settings)]. reflexivity. }
  destruct Hload as (msgs & Hload). rewrite Hload in Hrun.
  injection Hrun as <- <-. split; [reflexivity|]. exists msgs. split; [reflexivity|].
  unfold build_index, mbind, Py_bind. rewrite Hload. cbn [nonempty negb].
  unfold print, say. cbn. by rewrite app_assoc.
Qed.

End NoUsableData.

Lemma build_index_without_usable_data_witness :
  let run := load_documents Scenario.small (Some "python") Demo.fresh in
  @nil Document = [] /\
  exists msgs,
    run.2 = say msgs Demo.fresh /\
    build_index Scenario.small Demo.enc 1 (Some "python") Demo.fresh
    = (Returns tt, say (msgs ++ [NoDocumentsFound]) Demo.fresh).
Proof.
  intros run.
  apply (build_index_without_usable_data Scenario.small Demo.enc 1 "python" Demo.fresh);
    [discriminate|vm_compute; exact I|vm_compute; reflexivity].
Defined.
